(** * A shallow embedding of the messenger's real-time coordinator

    The development follows [src/models.py] (the tables) and [src/app.py]
    (the direct-message gate, the coin ledger, the voice-room handlers, the
    room-creation and message-history routes).

    Modelling conventions.
    - A table is the list of its rows in insertion (rowid) order; a query
      is a [filter] over that list, [.first()] is the head of the result,
      [.count()] its length, [.order_by] a stable sort and [.limit] a
      prefix.
    - The store is the SQLite database that [src/config.py] selects by
      default.  SQLite checks NOT NULL and PRIMARY KEY, and it does not
      check FOREIGN KEY clauses unless [PRAGMA foreign_keys] is switched
      on, which the application never does.  A new row gets the largest
      id of its table plus one.
    - A [DateTime] is an integer number of microseconds counted from
      [datetime.min]; every clock reading a handler makes is an argument.
    - A handler is a function from its inputs and the store to the new
      store and the list of effects ([emit], [join_room], ...) in the
      order the source performs them.
    - Python strings are strings of code points below 256.  Python
      integers are unbounded ([Z]).  An INTEGER of SQLite is a signed
      64-bit value and the driver refuses to bind any other integer to a
      query (OverflowError): every query on an integer a client sends is
      guarded by [binds], and the handler's [except] clause answers when
      the guard fails.  The ids a handler takes from the session or from
      a row were stored before, and are bound without a guard. *)

From Stdlib Require Import ZArith List String Ascii Bool Lia Arith.
From Stdlib Require Import Sorting.Sorted Sorting.Permutation.
From Stdlib Require DecimalString.
Import ListNotations.

Local Open Scope string_scope.
Local Open Scope Z_scope.

(** ** Constants of [src/app.py] *)

Definition MAX_STAGE : nat := 10.
Definition DM_FREE_MSG_LIMIT : nat := 3.

(** [datetime.min] and [timedelta(days=n)], in microseconds. *)
Definition datetime_min : Z := 0.
Definition timedelta_days (n : Z) : Z := n * 86400 * 1000000.

(** ** Python values *)

(** [str(n)] for an integer. *)
Definition str_int (n : Z) : string :=
  DecimalString.NilZero.string_of_int (Z.to_int n).

(** [str(x)] and [f"{x}"] for a value that is an integer or [None]. *)
Definition str_opt (x : option Z) : string :=
  match x with
  | Some n => str_int n
  | None => "None"
  end.

(** Truth value of an integer-or-[None] and of a string-or-[None]. *)
Definition truthy_int (x : option Z) : bool :=
  match x with
  | Some n => negb (n =? 0)
  | None => false
  end.

Definition truthy_str (x : option string) : bool :=
  match x with
  | Some s => negb (s =? "")%string
  | None => false
  end.

(** [x or d] on a string-or-[None]. *)
Definition str_or (x : option string) (d : string) : string :=
  if truthy_str x then match x with Some s => s | None => d end else d.

(** [str.isspace] on one code point below 256: TAB..CR, FS..US, space,
    NEL and the no-break space. *)
Definition is_space (c : ascii) : bool :=
  let n := nat_of_ascii c in
  ((9 <=? n) && (n <=? 13) || (28 <=? n) && (n <=? 32)
   || (n =? 133) || (n =? 160))%nat.

Fixpoint lstrip (s : string) : string :=
  match s with
  | String c s' => if is_space c then lstrip s' else s
  | EmptyString => EmptyString
  end.

(** [rstrip] keeps a character when it is not a space or when something
    is left to its right. *)
Fixpoint rstrip (s : string) : string :=
  match s with
  | String c s' =>
      match rstrip s' with
      | EmptyString => if is_space c then EmptyString else String c EmptyString
      | r => String c r
      end
  | EmptyString => EmptyString
  end.

(** [s.strip()] *)
Definition strip (s : string) : string := rstrip (lstrip s).

(** ** The tables of [src/models.py] *)

Module User.
Record t := mk {
  id : Z;
  username : string;
  password_hash : string;
  status : string;
  is_admin : bool;
  coins : Z
}.
Definition set_coins (c : Z) (u : t) : t :=
  mk (id u) (username u) (password_hash u) (status u) (is_admin u) c.
Definition set_status (s : string) (u : t) : t :=
  mk (id u) (username u) (password_hash u) s (is_admin u) (coins u).
End User.

Module Message.
Record t := mk {
  id : Z;
  body : string;
  created_at : Z;
  sender_id : Z;
  recipient_id : option Z;
  room : option string
}.
End Message.

Module CoinTransaction.
Record t := mk {
  id : Z;
  from_id : Z;
  to_id : Z;
  amount : Z;
  created_at : Z;
  note : string
}.
End CoinTransaction.

Module DMUnlock.
Record t := mk {
  id : Z;
  user_id : Z;
  target_id : Z;
  expires_at : option Z
}.
Definition set_expires_at (e : option Z) (u : t) : t :=
  mk (id u) (user_id u) (target_id u) e.
End DMUnlock.

Module VoiceRoom.
Record t := mk {
  id : Z;
  name : string;
  created_by : Z;
  created_at : Z;
  active : bool
}.
End VoiceRoom.

Module VoiceParticipant.
Record t := mk {
  id : Z;
  room_id : Z;
  user_id : Z;
  role : string;
  joined_at : Z
}.
Definition set_role (r : string) (p : t) : t :=
  mk (id p) (room_id p) (user_id p) r (joined_at p).
End VoiceParticipant.

Module VoiceComment.
Record t := mk {
  id : Z;
  room_id : Z;
  user_id : Z;
  body : string;
  created_at : Z
}.
End VoiceComment.

(** The database: one list per table. *)
Record DB := mkDB {
  users : list User.t;
  messages : list Message.t;
  coin_transactions : list CoinTransaction.t;
  dm_unlocks : list DMUnlock.t;
  voice_rooms : list VoiceRoom.t;
  voice_participants : list VoiceParticipant.t;
  voice_comments : list VoiceComment.t
}.

Definition empty_db : DB := mkDB [] [] [] [] [] [] [].

Definition set_users (x : list User.t) (d : DB) : DB :=
  mkDB x (messages d) (coin_transactions d) (dm_unlocks d)
       (voice_rooms d) (voice_participants d) (voice_comments d).
Definition set_messages (x : list Message.t) (d : DB) : DB :=
  mkDB (users d) x (coin_transactions d) (dm_unlocks d)
       (voice_rooms d) (voice_participants d) (voice_comments d).
Definition set_coin_transactions (x : list CoinTransaction.t) (d : DB) : DB :=
  mkDB (users d) (messages d) x (dm_unlocks d)
       (voice_rooms d) (voice_participants d) (voice_comments d).
Definition set_dm_unlocks (x : list DMUnlock.t) (d : DB) : DB :=
  mkDB (users d) (messages d) (coin_transactions d) x
       (voice_rooms d) (voice_participants d) (voice_comments d).
Definition set_voice_rooms (x : list VoiceRoom.t) (d : DB) : DB :=
  mkDB (users d) (messages d) (coin_transactions d) (dm_unlocks d)
       x (voice_participants d) (voice_comments d).
Definition set_voice_participants (x : list VoiceParticipant.t) (d : DB) : DB :=
  mkDB (users d) (messages d) (coin_transactions d) (dm_unlocks d)
       (voice_rooms d) x (voice_comments d).
Definition set_voice_comments (x : list VoiceComment.t) (d : DB) : DB :=
  mkDB (users d) (messages d) (coin_transactions d) (dm_unlocks d)
       (voice_rooms d) (voice_participants d) x.

(** ** Query combinators *)

Section Query.
Context {A : Type}.

(** [.first()] *)
Definition first (l : list A) : option A := hd_error l.

(** [.count()] *)
Definition count (l : list A) : nat := List.length l.

(** [.limit(n)] *)
Definition limit (n : nat) (l : list A) : list A := firstn n l.

(** The row object that [query.filter(p).first()] returns is mutated in
    place and flushed at commit: the first row satisfying [p] is
    replaced. *)
Fixpoint update_first (p : A -> bool) (f : A -> A) (l : list A) : list A :=
  match l with
  | [] => []
  | x :: l' => if p x then f x :: l' else x :: update_first p f l'
  end.

(** [query.filter(p).delete()] *)
Definition delete_where (p : A -> bool) (l : list A) : list A :=
  filter (fun x => negb (p x)) l.

(** The id SQLite gives to a new row. *)
Definition next_id (id : A -> Z) (l : list A) : Z :=
  1 + fold_right (fun x m => Z.max (id x) m) 0 l.

(** [.order_by(key.asc())]: a stable insertion sort on the rowid order;
    rows of equal key stay in rowid order, as SQLite returns them.  A row
    is inserted, from the last row to the first, in front of the rows
    whose key is not smaller. *)
Fixpoint insert_asc (key : A -> Z) (x : A) (l : list A) : list A :=
  match l with
  | [] => [x]
  | y :: l' => if key x <=? key y then x :: l else y :: insert_asc key x l'
  end.

Definition order_by_asc (key : A -> Z) (l : list A) : list A :=
  fold_right (insert_asc key) [] l.

(** [.order_by(key.desc())]: ascending on the negated key. *)
Definition order_by_desc (key : A -> Z) (l : list A) : list A :=
  order_by_asc (fun x => - key x) l.

(** Ascending in [key]. *)
Definition key_le (key : A -> Z) (x y : A) : Prop := key x <= key y.
End Query.

Definition opt_eqb (x : option Z) (n : Z) : bool :=
  match x with
  | Some m => m =? n
  | None => false
  end.

Definition has_id (n : Z) (u : User.t) : bool := User.id u =? n.

(** [User.query.get(id)]; a [None] key finds nothing. *)
Definition get_user (d : DB) (id : option Z) : option User.t :=
  match id with
  | Some n => first (filter (has_id n) (users d))
  | None => None
  end.

(** ** Binding integers to queries *)

(** The integers SQLite stores and its driver binds: signed 64-bit. *)
Definition fits (n : Z) : bool := (- 2 ^ 63 <=? n) && (n <? 2 ^ 63).

Definition fits_opt (x : option Z) : bool :=
  match x with
  | Some n => fits n
  | None => true
  end.

Definition opt_list (x : option Z) : list Z :=
  match x with
  | Some n => [n]
  | None => []
  end.

(** The integers in the id and foreign-key columns of the store. *)
Definition stored_ints (d : DB) : list Z :=
  (map User.id (users d)
   ++ flat_map (fun m => Message.sender_id m :: opt_list (Message.recipient_id m))
        (messages d)
   ++ flat_map (fun t => [CoinTransaction.from_id t; CoinTransaction.to_id t])
        (coin_transactions d)
   ++ flat_map (fun u => [DMUnlock.user_id u; DMUnlock.target_id u])
        (dm_unlocks d)
   ++ flat_map (fun r => [VoiceRoom.id r; VoiceRoom.created_by r])
        (voice_rooms d)
   ++ flat_map (fun p => [VoiceParticipant.room_id p; VoiceParticipant.user_id p])
        (voice_participants d)
   ++ flat_map (fun c => [VoiceComment.room_id c; VoiceComment.user_id c])
        (voice_comments d))%list.

(** An integer can be bound to a query when it fits.  The integers the
    store holds were bound when they were written, so they are taken to
    bind as well: in a store that holds 64-bit integers only, as every
    SQLite database does, [binds d n] is [fits n] (lemma [binds_fits]).
    A [None] is bound as NULL. *)
Definition binds (d : DB) (n : Z) : bool :=
  fits n || existsb (Z.eqb n) (stored_ints d).

Definition binds_opt (d : DB) (x : option Z) : bool :=
  match x with
  | Some n => binds d n
  | None => true
  end.

(** ** Effects of a handler *)

(** JSON values of the emitted payloads; [JTime t] stands for
    [t.isoformat()]. *)
Inductive jval :=
| JNull
| JInt (n : Z)
| JStr (s : string)
| JTime (t : Z).

Definition jopt_int (x : option Z) : jval :=
  match x with Some n => JInt n | None => JNull end.

Definition jopt_str (x : option string) : jval :=
  match x with Some s => JStr s | None => JNull end.

Definition payload := list (string * jval).

(** [emit(event, payload, room=r)] (or [to=r]), [disconnect()],
    [join_room(r)], [leave_room(r)]. *)
Inductive effect :=
| Emit (event : string) (p : payload) (to : string)
| Disconnect
| JoinRoom (r : string)
| LeaveRoom (r : string).

(** ** The caller's identity *)

(** The Flask session of the connection.  Flask-Login keeps the logged-in
    user's id under [_user_id]; [user_id] is the other key the message
    handler looks at, [Some None] standing for a value on which [int]
    raises. *)
Record Session := mkSession {
  sess__user_id : option Z;
  sess_user_id : option (option Z)
}.

(** [current_user]: the row [load_user] finds for the session's id, the
    anonymous user ([None]) otherwise. *)
Definition current_user (d : DB) (s : Session) : option User.t :=
  get_user d (sess__user_id s).

(** ** DMGate: [dm_allowed] *)

Definition unlock_for (sender_id recipient_id : Z) (u : DMUnlock.t) : bool :=
  (DMUnlock.user_id u =? sender_id) && (DMUnlock.target_id u =? recipient_id).

(** [not unlock.expires_at or unlock.expires_at > datetime.utcnow()] *)
Definition unlock_live (now : Z) (u : DMUnlock.t) : bool :=
  match DMUnlock.expires_at u with
  | None => true
  | Some e => now <? e
  end.

Definition is_reply (sender_id recipient_id : Z) (m : Message.t) : bool :=
  (Message.sender_id m =? recipient_id)
  && opt_eqb (Message.recipient_id m) sender_id.

Definition last_reply (d : DB) (sender_id recipient_id : Z) : option Message.t :=
  first (order_by_desc Message.created_at
           (filter (is_reply sender_id recipient_id) (messages d))).

Definition since (d : DB) (sender_id recipient_id : Z) : Z :=
  match last_reply d sender_id recipient_id with
  | Some m => Message.created_at m
  | None => datetime_min
  end.

Definition sent_after (sender_id recipient_id since : Z) (m : Message.t) : bool :=
  (Message.sender_id m =? sender_id)
  && opt_eqb (Message.recipient_id m) recipient_id
  && (since <? Message.created_at m).

(** The first test of [dm_allowed]: [unlock and (not unlock.expires_at or
    unlock.expires_at > datetime.utcnow())]. *)
Definition unlock_active (now : Z) (d : DB) (sender_id recipient_id : Z) : bool :=
  match first (filter (unlock_for sender_id recipient_id) (dm_unlocks d)) with
  | Some unlock => unlock_live now unlock
  | None => false
  end.

(** The number of messages sent since the last reply. *)
Definition sent_count (d : DB) (sender_id recipient_id : Z) : nat :=
  count (filter (sent_after sender_id recipient_id
                   (since d sender_id recipient_id)) (messages d)).

(** [None]: a query of [dm_allowed] raised OverflowError, one of the two
    ids could not be bound. *)
Definition dm_allowed (now : Z) (d : DB) (sender_id recipient_id : Z)
    : option bool :=
  if binds d sender_id && binds d recipient_id then
    Some (if unlock_active now d sender_id recipient_id then true
          else (sent_count d sender_id recipient_id <? DM_FREE_MSG_LIMIT)%nat)
  else None.

(** ** [send_message] *)

Record send_message_data := mkSendMessage {
  sm_body : option string;
  sm_recipient_id : option Z;
  sm_room : option string
}.

(** The sender the handler resolves: [current_user.id], else
    [int(session['_user_id'])], else [int(session['user_id'])]. *)
Definition resolve_sender (d : DB) (s : Session) : option Z :=
  match current_user d s with
  | Some u => Some (User.id u)
  | None =>
      match sess__user_id s with
      | Some n => Some n
      | None =>
          match sess_user_id s with
          | Some v => v
          | None => None
          end
      end
  end.

Definition unlock_reason : string :=
  "You must receive a response or send coins to unlock.".

Definition message_payload (d : DB) (msg : Message.t) : payload :=
  [ ("id", JInt (Message.id msg));
    ("body", JStr (Message.body msg));
    ("sender_id", JInt (Message.sender_id msg));
    ("sender_username",
      JStr match get_user d (Some (Message.sender_id msg)) with
           | Some sender => User.username sender
           | None => "Unknown"
           end);
    ("recipient_id", jopt_int (Message.recipient_id msg));
    ("room", jopt_str (Message.room msg));
    ("created_at", JTime (Message.created_at msg)) ].

(** [sid] is [request.sid]; [now] is the clock read by [dm_allowed] and
    [stamp] the one read for the [created_at] default.  When [dm_allowed]
    raises, the [except] clause rolls back and answers on the caller's
    connection. *)
Definition sio_send_message (sess : Session) (sid : string)
    (data : send_message_data) (now stamp : Z) (d : DB) : DB * list effect :=
  match resolve_sender d sess with
  | None => (d, [Emit "blocked_message" [("reason", JStr "Not authenticated.")] sid])
  | Some sender_id =>
      if sender_id =? 0 then
        (d, [Emit "blocked_message" [("reason", JStr "Not authenticated.")] sid])
      else
        let body := strip (str_or (sm_body data) "") in
        let recipient_id := sm_recipient_id data in
        let room := sm_room data in
        if (body =? "")%string then (d, [])
        else
          let msg := Message.mk (next_id Message.id (messages d)) body stamp
                                sender_id recipient_id room in
          let d' := set_messages (messages d ++ [msg]) d in
          let p := message_payload d' msg in
          let delivered :=
            (d',
             if truthy_str room then
               [Emit "new_message" p (match room with Some r => r | None => "" end)]
             else if truthy_int recipient_id then
               [Emit "new_message" p (str_opt recipient_id);
                Emit "new_message" p (str_int sender_id)]
             else
               [Emit "new_message" p "lobby"]) in
          if truthy_int recipient_id then
            match dm_allowed now d sender_id
                    (match recipient_id with Some r => r | None => 0 end) with
            | None =>
                (d, [Emit "blocked_message"
                       [("reason", JStr "Error sending message.")] sid])
            | Some false =>
                (d, [Emit "blocked_message" [("reason", JStr unlock_reason)]
                       (str_int sender_id)])
            | Some true => delivered
            end
          else delivered
  end.

(** ** CoinLedger: [send_coins] *)

Record send_coins_data := mkSendCoins {
  sc_to : option Z;
  sc_amount : option Z          (* [None]: the key is missing *)
}.

Definition blocked (reason : string) (to : string) : effect :=
  Emit "blocked_message" [("reason", JStr reason)] to.

Definition coins_of (d : DB) (id : Z) : Z :=
  match get_user d (Some id) with
  | Some u => User.coins u
  | None => 0
  end.

(** [now] is the clock read for the unlock's expiry and [stamp] the one
    read for the transaction's [created_at] default.  [current_user] and
    [recipient] are rows of the one session: when their ids coincide they
    are one object, so the credit applies to the debited balance.  When
    the recipient's id cannot be bound, [User.query.get] raises and the
    [except] clause rolls back and answers. *)
Definition sio_send_coins (sess : Session) (data : send_coins_data)
    (now stamp : Z) (d : DB) : DB * list effect :=
  match current_user d sess with
  | None => (d, [Disconnect])
  | Some cu =>
      let to_id := sc_to data in
      let amount := match sc_amount data with Some a => a | None => 0 end in
      if amount <=? 0 then (d, [])
      else if User.coins cu <? amount then
        (d, [blocked "Not enough coins." (str_int (User.id cu))])
      else if negb (binds_opt d to_id) then
        (d, [blocked "Error sending coins." (str_int (User.id cu))])
      else
        match get_user d to_id with
        | None => (d, [blocked "User not found." (str_int (User.id cu))])
        | Some recipient =>
            let us1 := update_first (has_id (User.id cu))
                         (fun u => User.set_coins (User.coins u - amount) u)
                         (users d) in
            let us2 := update_first (has_id (User.id recipient))
                         (fun u => User.set_coins (User.coins u + amount) u)
                         us1 in
            let tx := CoinTransaction.mk
                        (next_id CoinTransaction.id (coin_transactions d))
                        (User.id cu) (User.id recipient) amount stamp "gift" in
            let expiry := Some (now + timedelta_days 30) in
            let unlocks :=
              match first (filter (unlock_for (User.id cu) (User.id recipient))
                             (dm_unlocks d)) with
              | None =>
                  (dm_unlocks d ++
                   [DMUnlock.mk (next_id DMUnlock.id (dm_unlocks d))
                      (User.id cu) (User.id recipient) expiry])%list
              | Some _ =>
                  update_first (unlock_for (User.id cu) (User.id recipient))
                    (DMUnlock.set_expires_at expiry) (dm_unlocks d)
              end in
            let d' := set_dm_unlocks unlocks
                        (set_coin_transactions (coin_transactions d ++ [tx])
                           (set_users us2 d)) in
            (d',
             [Emit "coins_update"
                [("user_id", JInt (User.id cu));
                 ("coins", JInt (coins_of d' (User.id cu)))]
                (str_int (User.id cu));
              Emit "coins_update"
                [("user_id", JInt (User.id recipient));
                 ("coins", JInt (coins_of d' (User.id recipient)))]
                (str_int (User.id recipient))])
        end
  end.

(** ** RoomCoordinator: the voice-room handlers *)

(** [filter_by(column=x)] on a NOT NULL integer column: a [None] matches
    no row. *)
Definition col_eqb (c : Z) (x : option Z) : bool :=
  match x with
  | Some n => c =? n
  | None => false
  end.

Definition participant_of (room_id user_id : option Z)
    (p : VoiceParticipant.t) : bool :=
  col_eqb (VoiceParticipant.room_id p) room_id
  && col_eqb (VoiceParticipant.user_id p) user_id.

Definition with_role (room_id : option Z) (role : string)
    (p : VoiceParticipant.t) : bool :=
  col_eqb (VoiceParticipant.room_id p) room_id
  && (VoiceParticipant.role p =? role)%string.

(** [f"voice_{room_id}"] *)
Definition voice_room_name (room_id : option Z) : string :=
  "voice_" ++ str_opt room_id.

(** [voice_join]; [stamp] is the clock read for [joined_at].  A room id
    that cannot be bound makes the query raise, and a row with a [None]
    room violates NOT NULL at the commit: either way the [except] clause
    rolls back and answers. *)
Definition sio_voice_join (sess : Session) (room_id : option Z) (stamp : Z)
    (d : DB) : DB * list effect :=
  match current_user d sess with
  | None => (d, [Disconnect])
  | Some cu =>
      let room_name := voice_room_name room_id in
      if negb (binds_opt d room_id) then
        (d, [JoinRoom room_name;
             blocked "Error joining voice room." (str_int (User.id cu))])
      else
      match first (filter (participant_of room_id (Some (User.id cu)))
                     (voice_participants d)) with
      | Some vp =>
          (d, [JoinRoom room_name;
               Emit "voice_user_joined"
                 [("user_id", JInt (User.id cu));
                  ("role", JStr (VoiceParticipant.role vp))] room_name])
      | None =>
          match room_id with
          | None =>
              (d, [JoinRoom room_name;
                   blocked "Error joining voice room." (str_int (User.id cu))])
          | Some r =>
              let vp := VoiceParticipant.mk
                          (next_id VoiceParticipant.id (voice_participants d))
                          r (User.id cu) "listener" stamp in
              (set_voice_participants (voice_participants d ++ [vp]) d,
               [JoinRoom room_name;
                Emit "voice_user_joined"
                  [("user_id", JInt (User.id cu));
                   ("role", JStr (VoiceParticipant.role vp))] room_name])
          end
      end
  end.

(** [voice_leave]; when the room id cannot be bound the DELETE raises and
    the [except] clause rolls back without an event. *)
Definition sio_voice_leave (sess : Session) (room_id : option Z) (d : DB)
    : DB * list effect :=
  match current_user d sess with
  | None => (d, [Disconnect])
  | Some cu =>
      let room_name := voice_room_name room_id in
      if negb (binds_opt d room_id) then (d, [LeaveRoom room_name])
      else
      (set_voice_participants
         (delete_where (participant_of room_id (Some (User.id cu)))
            (voice_participants d)) d,
       [LeaveRoom room_name;
        Emit "voice_user_left" [("user_id", JInt (User.id cu))] room_name])
  end.

Record stage_decision_data := mkStageDecision {
  sd_room_id : option Z;
  sd_user_id : option Z;
  sd_accept : bool
}.

(** [voice_stage_decision]; the count binds the room id and the lookup of
    the target's row binds the target id: when one of them cannot be
    bound the query raises and the [except] clause rolls back without an
    event. *)
Definition sio_voice_stage_decision (sess : Session)
    (data : stage_decision_data) (d : DB) : DB * list effect :=
  match current_user d sess with
  | None => (d, [Disconnect])
  | Some _ =>
      let room_id := sd_room_id data in
      let target_id := sd_user_id data in
      let room_name := voice_room_name room_id in
      if sd_accept data then
        let speakers := count (filter (with_role room_id "speaker")
                                 (voice_participants d)) in
        if negb (binds_opt d room_id) then (d, [])
        else if (MAX_STAGE <=? speakers)%nat then
          (d, [Emit "voice_stage_full" [] (str_opt target_id)])
        else if negb (binds_opt d target_id) then (d, [])
        else
          let d' :=
            match first (filter (participant_of room_id target_id)
                           (voice_participants d)) with
            | Some _ =>
                set_voice_participants
                  (update_first (participant_of room_id target_id)
                     (VoiceParticipant.set_role "speaker")
                     (voice_participants d)) d
            | None => d
            end in
          (d', [Emit "voice_stage_granted"
                  [("user_id", jopt_int target_id)] room_name])
      else
        (d, [Emit "voice_stage_denied"
               [("user_id", jopt_int target_id)] (str_opt target_id)])
  end.

(** [voice_comment]; a room id that cannot be bound, like a [None] room
    (NOT NULL), makes the commit raise, and the [except] clause rolls
    back without an answer. *)
Definition sio_voice_comment (sess : Session) (room_id : option Z)
    (body : option string) (stamp : Z) (d : DB) : DB * list effect :=
  match current_user d sess with
  | None => (d, [Disconnect])
  | Some cu =>
      let body := strip (str_or body "") in
      if (body =? "")%string then (d, [])
      else
        match room_id with
        | None => (d, [])
        | Some r =>
            if negb (binds d r) then (d, [])
            else
            let vc := VoiceComment.mk
                        (next_id VoiceComment.id (voice_comments d))
                        r (User.id cu) body stamp in
            (set_voice_comments (voice_comments d ++ [vc]) d,
             [Emit "voice_comment"
                [("user_id", JInt (User.id cu)); ("body", JStr body)]
                (voice_room_name room_id)])
        end
  end.

(** ** The request/response routes *)

Inductive response :=
| RedirectLogin                                  (* [login_required] refuses *)
| ServerError                                    (* uncaught exception: 500 *)
| JsonObject (status : Z) (body : payload)
| JsonList (status : Z) (body : list payload).

(** [api_create_room]; [name] is [data.get("name")], [stamp_room] and
    [stamp_vp] are the clocks read at the two commits. *)
Definition api_create_room (sess : Session) (name : option string)
    (stamp_room stamp_vp : Z) (d : DB) : DB * response :=
  match current_user d sess with
  | None => (d, RedirectLogin)
  | Some cu =>
      let name :=
        let n := strip (str_or name "Room") in
        if (n =? "")%string then "Room" else n in
      let room := VoiceRoom.mk (next_id VoiceRoom.id (voice_rooms d))
                    name (User.id cu) stamp_room true in
      let d1 := set_voice_rooms (voice_rooms d ++ [room]) d in
      let vp := VoiceParticipant.mk
                  (next_id VoiceParticipant.id (voice_participants d1))
                  (VoiceRoom.id room) (User.id cu) "host" stamp_vp in
      let d2 := set_voice_participants (voice_participants d1 ++ [vp]) d1 in
      (d2, JsonObject 200 [("id", JInt (VoiceRoom.id room));
                           ("name", JStr (VoiceRoom.name room))])
  end.

Definition in_room (room : string) (m : Message.t) : bool :=
  match Message.room m with
  | Some r => (r =? room)%string
  | None => false
  end.

Definition between (me other : Z) (m : Message.t) : bool :=
  (Message.sender_id m =? me) && opt_eqb (Message.recipient_id m) other
  || (Message.sender_id m =? other) && opt_eqb (Message.recipient_id m) me.

(** [query.order_by(Message.created_at.asc()).limit(100).all()] *)
Definition history (p : Message.t -> bool) (d : DB) : list Message.t :=
  limit 100 (order_by_asc Message.created_at (filter p (messages d))).

(** [api_messages]; the route has no [try]: a [recipient_id] that cannot
    be bound makes the query raise and the request ends in a 500. *)
Definition api_messages (sess : Session) (room : option string)
    (recipient_id : option Z) (d : DB) : response :=
  match current_user d sess with
  | None => RedirectLogin
  | Some cu =>
      if truthy_str room then
        JsonList 200
          (map (message_payload d)
             (history (in_room (match room with Some r => r | None => "" end)) d))
      else if truthy_int recipient_id then
        if binds_opt d recipient_id then
          JsonList 200
            (map (message_payload d)
               (history (between (User.id cu)
                           (match recipient_id with Some r => r | None => 0 end))
                  d))
        else ServerError
      else JsonObject 400 [("error", JStr "room or recipient_id required")]
  end.

(** [register] (POST); [hash] is the salted value
    [generate_password_hash(password)] returns.  The answer is the status
    code. *)
Definition register (username password : option string) (hash : string)
    (d : DB) : DB * Z :=
  let username := strip (str_or username "") in
  let password := strip (str_or password "") in
  if (username =? "")%string || (password =? "")%string then (d, 400)
  else if (String.length username <? 3)%nat then (d, 400)
  else if (String.length password <? 6)%nat then (d, 400)
  else
    match first (filter (fun u => (User.username u =? username)%string)
                   (users d)) with
    | Some _ => (d, 409)
    | None =>
        let user := User.mk (next_id User.id (users d)) username hash
                      "offline" false 1000 in
        (set_users (users d ++ [user]) d, 302)
    end.

(** What [login], [logout], [connect] and [disconnect] write: the status
    of the session's user. *)
Definition set_user_status (sess : Session) (status : string) (d : DB) : DB :=
  match current_user d sess with
  | None => d
  | Some cu =>
      set_users (update_first (has_id (User.id cu)) (User.set_status status)
                   (users d)) d
  end.

(** ** Runs of the application *)

(** One request served to completion. *)
Inductive request :=
| Register (username password : option string) (hash : string)
| SetStatus (sess : Session) (status : string)
| CreateRoom (sess : Session) (name : option string) (stamp_room stamp_vp : Z)
| SendMessage (sess : Session) (sid : string) (data : send_message_data)
    (now stamp : Z)
| SendCoins (sess : Session) (data : send_coins_data) (now stamp : Z)
| VoiceJoin (sess : Session) (room_id : option Z) (stamp : Z)
| VoiceLeave (sess : Session) (room_id : option Z)
| StageDecision (sess : Session) (data : stage_decision_data)
| VoiceCommentReq (sess : Session) (room_id : option Z) (body : option string)
    (stamp : Z).

Definition step (r : request) (d : DB) : DB :=
  match r with
  | Register u p h => fst (register u p h d)
  | SetStatus s st => set_user_status s st d
  | CreateRoom s n t1 t2 => fst (api_create_room s n t1 t2 d)
  | SendMessage s sid data now t => fst (sio_send_message s sid data now t d)
  | SendCoins s data now t => fst (sio_send_coins s data now t d)
  | VoiceJoin s r t => fst (sio_voice_join s r t d)
  | VoiceLeave s r => fst (sio_voice_leave s r d)
  | StageDecision s data => fst (sio_voice_stage_decision s data d)
  | VoiceCommentReq s r b t => fst (sio_voice_comment s r b t d)
  end.

(** Requests are served one after the other, starting on the empty
    database that [db.create_all()] leaves. *)
Definition run (rs : list request) (d : DB) : DB :=
  fold_left (fun d r => step r d) rs d.

Inductive reachable : DB -> Prop :=
| reach_init : reachable empty_db
| reach_step : forall r d, reachable d -> reachable (step r d).

(** ** State invariants *)

(** At most one unlock row per (granter, target) pair. *)
Definition unlock_key (u : DMUnlock.t) : Z * Z :=
  (DMUnlock.user_id u, DMUnlock.target_id u).

Definition unlock_unique (d : DB) : Prop :=
  NoDup (map unlock_key (dm_unlocks d)).

(** ** Notions used in the statements *)

(** No unlock row of the pair is live at [now]. *)
Definition no_active_unlock (now : Z) (d : DB) (sender_id recipient_id : Z)
    : Prop :=
  forall u, In u (dm_unlocks d) ->
    DMUnlock.user_id u = sender_id -> DMUnlock.target_id u = recipient_id ->
    unlock_live now u = false.

(** The message [send_message] stores. *)
Definition new_message (d : DB) (data : send_message_data) (sender_id stamp : Z)
    : Message.t :=
  Message.mk (next_id Message.id (messages d))
    (strip (str_or (sm_body data) "")) stamp sender_id
    (sm_recipient_id data) (sm_room data).

(** The balance of a user, as [User.query.get(id).coins]. *)
Definition balance (d : DB) (id : Z) : option Z :=
  option_map User.coins (get_user d (Some id)).

(** The number of speakers of a room, as the handler counts them. *)
Definition speakers (d : DB) (room_id : option Z) : nat :=
  List.length
    (filter (fun p => col_eqb (VoiceParticipant.room_id p) room_id
                      && (VoiceParticipant.role p =? "speaker")%string)
       (voice_participants d)).

(** The participants of a room. *)
Definition in_voice_room (rid : Z) (p : VoiceParticipant.t) : bool :=
  VoiceParticipant.room_id p =? rid.

(** ** Sample runs *)

Definition ex_alice : Session := mkSession (Some 1) None.
Definition ex_bob : Session := mkSession (Some 2) None.

Definition ex_alice_row : User.t := User.mk 1 "alice" "h1" "offline" false 1000.
Definition ex_bob_row : User.t := User.mk 2 "bob" "h2" "offline" false 1000.

(** Two registered users. *)
Definition ex_db0 : DB :=
  run [Register (Some "alice") (Some "secret1") "h1";
       Register (Some " bob ") (Some "secret2") "h2"] empty_db.

Definition ex_hello : send_message_data := mkSendMessage (Some " hi ") (Some 2) None.

(** Alice has written to Bob three times and has no answer. *)
Definition ex_db3 : DB :=
  run [SendMessage ex_alice "sid1" ex_hello 10 11;
       SendMessage ex_alice "sid1" ex_hello 20 21;
       SendMessage ex_alice "sid1" ex_hello 30 31] ex_db0.

Definition ex_gift : send_coins_data := mkSendCoins (Some 2) (Some 50).

(** ... and then sends him 50 coins at time 100. *)
Definition ex_unlocked : DB := step (SendCoins ex_alice ex_gift 100 101) ex_db3.

(** Bob has opened a room and Alice has joined it. *)
Definition ex_rooms : DB :=
  run [CreateRoom ex_bob (Some "talk") 5 6; VoiceJoin ex_alice (Some 1) 7] ex_db0.

(** Alice joins room 1 before any room exists; Bob then creates the
    first room. *)
Definition ex_early_join : DB := step (VoiceJoin ex_alice (Some 1) 3) ex_db0.

(** A room with ten speakers (users 1 to 10) and the listener 11. *)
Definition ex_full_room : DB :=
  set_voice_participants
    (map (fun n => VoiceParticipant.mk n 1 n "speaker" 0)
       [1; 2; 3; 4; 5; 6; 7; 8; 9; 10]
     ++ [VoiceParticipant.mk 11 1 11 "listener" 0])%list
    ex_db0.

(** ** Further handlers of [src/app.py] *)

(** [voice_request_stage]: one request to the room of every host row of
    the voice room, in row order.  The handler has no [try]: a room id
    that cannot be bound makes the query raise and nothing is sent. *)
Definition sio_voice_request_stage (sess : Session) (room_id : option Z)
    (d : DB) : DB * list effect :=
  match current_user d sess with
  | None => (d, [Disconnect])
  | Some cu =>
      if negb (binds_opt d room_id) then (d, [])
      else
      let host_ids :=
        map VoiceParticipant.user_id
          (filter (with_role room_id "host") (voice_participants d)) in
      (d, map (fun hid =>
                 Emit "voice_stage_request"
                   [("from", JInt (User.id cu)); ("room_id", jopt_int room_id)]
                   (str_int hid))
              host_ids)
  end.

(** [logout_user()] and [login_user(user)] on the session. *)
Definition logout_user (s : Session) : Session :=
  mkSession None (sess_user_id s).

Definition login_user (u : User.t) (s : Session) : Session :=
  mkSession (Some (User.id u)) (sess_user_id s).

Definition named (username : string) (u : User.t) : bool :=
  (User.username u =? username)%string.

(** [login] (POST); [check_password_hash] is werkzeug's.  The answer is
    the new store, the new session and the status code. *)
Definition login (check_password_hash : string -> string -> bool)
    (sess : Session) (username password : option string) (d : DB)
    : DB * Session * Z :=
  let sess :=
    match current_user d sess with
    | Some _ => logout_user sess
    | None => sess
    end in
  let username := strip (str_or username "") in
  let password := strip (str_or password "") in
  if (username =? "")%string || (password =? "")%string then (d, sess, 400)
  else
    match first (filter (named username) (users d)) with
    | Some user =>
        if check_password_hash (User.password_hash user) password then
          (set_users (update_first (named username) (User.set_status "online")
                        (users d)) d,
           login_user user sess, 302)
        else (d, sess, 401)
    | None => (d, sess, 401)
    end.

(** [logout]: the answer is the new store and the new session; either
    way the browser is sent to the login page. *)
Definition logout (sess : Session) (d : DB) : DB * Session :=
  match current_user d sess with
  | None => (d, sess)
  | Some cu =>
      (set_users (update_first (has_id (User.id cu)) (User.set_status "offline")
                    (users d)) d,
       logout_user sess)
  end.

(** ** Further notions used in the statements *)

(** The coins of a list of users. *)
Definition sum_coins (l : list User.t) : Z :=
  fold_right (fun u s => User.coins u + s) 0 l.

(** All the coins there are. *)
Definition total_coins (d : DB) : Z :=
  fold_right (fun u s => User.coins u + s) 0 (users d).

(** The (room, user) pair of a participant row. *)
Definition pair_key (p : VoiceParticipant.t) : Z * Z :=
  (VoiceParticipant.room_id p, VoiceParticipant.user_id p).

Definition pair_unique (d : DB) : Prop :=
  NoDup (map pair_key (voice_participants d)).

(** The primary keys: no id occurs twice in a table. *)
Definition ids_unique (d : DB) : Prop :=
  NoDup (map User.id (users d))
  /\ NoDup (map Message.id (messages d))
  /\ NoDup (map CoinTransaction.id (coin_transactions d))
  /\ NoDup (map DMUnlock.id (dm_unlocks d))
  /\ NoDup (map VoiceRoom.id (voice_rooms d))
  /\ NoDup (map VoiceParticipant.id (voice_participants d))
  /\ NoDup (map VoiceComment.id (voice_comments d)).

(** ** What one request can do to the store *)

(** The rows a successful transfer of [a] coins from [cu] to [rcp]
    leaves, as [sio_send_coins] writes them. *)
Definition transfer (cu rcp : User.t) (a now stamp : Z) (d : DB) : DB :=
  set_dm_unlocks
    match first (filter (unlock_for (User.id cu) (User.id rcp))
                   (dm_unlocks d)) with
    | None =>
        (dm_unlocks d ++
         [DMUnlock.mk (next_id DMUnlock.id (dm_unlocks d))
            (User.id cu) (User.id rcp) (Some (now + timedelta_days 30))])%list
    | Some _ =>
        update_first (unlock_for (User.id cu) (User.id rcp))
          (DMUnlock.set_expires_at (Some (now + timedelta_days 30)))
          (dm_unlocks d)
    end
    (set_coin_transactions
       (coin_transactions d ++
        [CoinTransaction.mk (next_id CoinTransaction.id (coin_transactions d))
           (User.id cu) (User.id rcp) a stamp "gift"])
       (set_users
          (update_first (has_id (User.id rcp))
             (fun u => User.set_coins (User.coins u + a) u)
             (update_first (has_id (User.id cu))
                (fun u => User.set_coins (User.coins u - a) u) (users d)))
          d)).

(** The writes the handlers perform, each with the test that guards it. *)
Inductive change (d : DB) : DB -> Prop :=
| ch_none : change d d
| ch_register username hash :
    first (filter (named username) (users d)) = None ->
    (3 <= String.length username)%nat ->
    change d (set_users
                (users d ++ [User.mk (next_id User.id (users d)) username hash
                               "offline" false 1000]) d)
| ch_status cu status :
    change d (set_users
                (update_first (has_id (User.id cu)) (User.set_status status)
                   (users d)) d)
| ch_message body stamp sender_id recipient_id room :
    body <> ""%string -> strip body = body -> sender_id <> 0 ->
    change d (set_messages
                (messages d ++ [Message.mk (next_id Message.id (messages d))
                                  body stamp sender_id recipient_id room]) d)
| ch_transfer cu rcp a now stamp :
    first (filter (has_id (User.id cu)) (users d)) = Some cu ->
    first (filter (has_id (User.id rcp)) (users d)) = Some rcp ->
    0 < a -> a <= User.coins cu ->
    change d (transfer cu rcp a now stamp d)
| ch_room name created_by stamp_room stamp_vp :
    name <> ""%string ->
    change d
      (set_voice_participants
         (voice_participants d ++
          [VoiceParticipant.mk
             (next_id VoiceParticipant.id (voice_participants d))
             (next_id VoiceRoom.id (voice_rooms d)) created_by "host" stamp_vp])
         (set_voice_rooms
            (voice_rooms d ++ [VoiceRoom.mk (next_id VoiceRoom.id (voice_rooms d))
                                 name created_by stamp_room true]) d))
| ch_join r user_id stamp :
    filter (participant_of (Some r) (Some user_id)) (voice_participants d) = [] ->
    change d
      (set_voice_participants
         (voice_participants d ++
          [VoiceParticipant.mk
             (next_id VoiceParticipant.id (voice_participants d))
             r user_id "listener" stamp]) d)
| ch_leave room_id user_id :
    change d
      (set_voice_participants
         (delete_where (participant_of room_id user_id) (voice_participants d))
         d)
| ch_promote room_id target_id :
    (speakers d room_id < MAX_STAGE)%nat ->
    change d
      (set_voice_participants
         (update_first (participant_of room_id target_id)
            (VoiceParticipant.set_role "speaker") (voice_participants d)) d)
| ch_comment r user_id body stamp :
    body <> ""%string -> strip body = body ->
    change d
      (set_voice_comments
         (voice_comments d ++
          [VoiceComment.mk (next_id VoiceComment.id (voice_comments d))
             r user_id body stamp]) d).

(** ** Further sample data *)

(** A connection without a logged-in user. *)
Definition ex_anon : Session := mkSession None None.

(** A hash check that accepts "secret1" for the hash "h1". *)
Definition ex_check (hash password : string) : bool :=
  (hash =? "h1")%string && (password =? "secret1")%string.

(** Bob has answered Alice's three messages. *)
Definition ex_replied : DB :=
  step (SendMessage ex_bob "sid2" (mkSendMessage (Some "hello") (Some 1) None)
          50 51) ex_db3.

(** Five lobby messages, three written at time 10 and two at time 20. *)
Definition ex_ties : DB :=
  set_messages
    [Message.mk 1 "a" 20 1 None (Some "lobby");
     Message.mk 2 "b" 10 1 None (Some "lobby");
     Message.mk 3 "c" 20 2 None (Some "lobby");
     Message.mk 4 "d" 10 2 None (Some "lobby");
     Message.mk 5 "e" 10 1 None (Some "lobby")] ex_db0.

(** The smallest positive integer SQLite cannot hold. *)
Definition ex_huge : Z := 2 ^ 63.

(** * Properties *)

(** ** Lists and queries *)

Section QueryFacts.
Context {A : Type}.
Implicit Types (l : list A) (p q : A -> bool) (f : A -> A) (key : A -> Z).

Lemma first_filter_In l p x :
  first (filter p l) = Some x -> In x l /\ p x = true.
Proof.
  unfold first. intros H.
  assert (I : In x (filter p l)).
  { destruct (filter p l); simpl in H; [discriminate | left; congruence]. }
  apply filter_In in I. exact I.
Qed.

Lemma first_filter_None l p :
  first (filter p l) = None <-> filter p l = [].
Proof.
  unfold first. destruct (filter p l); simpl; split; congruence.
Qed.

Lemma filter_nil_iff l p :
  filter p l = [] <-> forall x, In x l -> p x = false.
Proof.
  induction l as [|a l IH]; simpl.
  - split; [intros _ x [] | reflexivity].
  - destruct (p a) eqn:E.
    + split; [discriminate |].
      intros H. specialize (H a (or_introl eq_refl)). congruence.
    + rewrite IH. split.
      * intros H x [<-|I]; auto.
      * intros H x I. apply H. now right.
Qed.

Lemma update_first_length l p f :
  List.length (update_first p f l) = List.length l.
Proof.
  induction l as [|a l IH]; simpl; [reflexivity|].
  destruct (p a); simpl; congruence.
Qed.

(** Updating the first [p]-row leaves a [q]-query alone when neither the
    row nor its new value answers [q]. *)
Lemma filter_update_first_other l p q f :
  (forall x, p x = true -> q x = false /\ q (f x) = false) ->
  filter q (update_first p f l) = filter q l.
Proof.
  intros H. induction l as [|a l IH]; simpl; [reflexivity|].
  destruct (p a) eqn:E; simpl.
  - destruct (H a E) as [-> ->]. reflexivity.
  - rewrite IH. reflexivity.
Qed.

(** Updating the first [p]-row with a function that keeps [p]: the
    [p]-query returns the same rows, the first one updated. *)
Lemma filter_update_first_same l p f :
  (forall x, p x = true -> p (f x) = true) ->
  filter p (update_first p f l) =
  match filter p l with
  | [] => []
  | x :: r => f x :: r
  end.
Proof.
  intros H. induction l as [|a l IH]; simpl; [reflexivity|].
  destruct (p a) eqn:E; simpl.
  - rewrite (H a E). reflexivity.
  - rewrite E. exact IH.
Qed.

Lemma map_update_first {B} (g : A -> B) l p f :
  (forall x, g (f x) = g x) -> map g (update_first p f l) = map g l.
Proof.
  intros H. induction l as [|a l IH]; simpl; [reflexivity|].
  destruct (p a); simpl; [rewrite H | rewrite IH]; reflexivity.
Qed.

Lemma delete_where_none l p :
  filter p (delete_where p l) = [].
Proof.
  unfold delete_where. apply filter_nil_iff. intros x I.
  apply filter_In in I. destruct I as [_ N].
  now apply negb_true_iff in N.
Qed.

Lemma filter_delete_where_other l p q :
  (forall x, q x = true -> p x = false) ->
  filter q (delete_where p l) = filter q l.
Proof.
  intros H. unfold delete_where.
  induction l as [|a l IH]; simpl; [reflexivity|].
  destruct (p a) eqn:E; simpl.
  - destruct (q a) eqn:Q; [rewrite (H a Q) in E; discriminate | exact IH].
  - rewrite IH. reflexivity.
Qed.

(** *** Sorting *)

Lemma insert_asc_perm key x l : Permutation (insert_asc key x l) (x :: l).
Proof.
  induction l as [|y l IH]; simpl; [reflexivity|].
  destruct (key x <=? key y); [reflexivity|].
  rewrite IH. apply perm_swap.
Qed.

Lemma order_by_asc_perm key l : Permutation (order_by_asc key l) l.
Proof.
  induction l as [|x l IH]; simpl; [constructor|].
  rewrite insert_asc_perm. now constructor.
Qed.

Lemma insert_asc_sorted key x l :
  StronglySorted (key_le key) l ->
  StronglySorted (key_le key) (insert_asc key x l).
Proof.
  induction 1 as [|y l S IH F]; simpl.
  - constructor; constructor.
  - destruct (key x <=? key y) eqn:E.
    + apply Z.leb_le in E. constructor; [now constructor|].
      constructor; [exact E|].
      eapply Forall_impl; [|exact F]. unfold key_le. intros; lia.
    + apply Z.leb_gt in E. constructor; [exact IH|].
      eapply Permutation_Forall; [symmetry; apply insert_asc_perm|].
      constructor; [unfold key_le; lia | exact F].
Qed.

Lemma order_by_asc_sorted key l :
  StronglySorted (key_le key) (order_by_asc key l).
Proof.
  induction l as [|x l IH]; simpl; [constructor|].
  now apply insert_asc_sorted.
Qed.

(** The order is stable: rows of one key stay in the order of the
    table, as SQLite returns them. *)
Lemma insert_asc_at key k x l :
  filter (fun y => key y =? k) (insert_asc key x l)
  = filter (fun y => key y =? k) (x :: l).
Proof.
  induction l as [|y l IH]; [reflexivity|].
  cbn [insert_asc]. destruct (key x <=? key y) eqn:E; [reflexivity|].
  apply Z.leb_gt in E. cbn [filter] in *. rewrite IH.
  destruct (key x =? k) eqn:X, (key y =? k) eqn:Y; try reflexivity.
  apply Z.eqb_eq in X. apply Z.eqb_eq in Y. lia.
Qed.

Lemma order_by_asc_stable key k l :
  filter (fun y => key y =? k) (order_by_asc key l)
  = filter (fun y => key y =? k) l.
Proof.
  induction l as [|x l IH]; [reflexivity|].
  cbn [order_by_asc fold_right]. rewrite insert_asc_at.
  cbn [filter]. fold (order_by_asc key l). rewrite IH. reflexivity.
Qed.

(** The first row of a descending order carries the largest key. *)
Lemma first_order_by_desc key l :
  match first (order_by_desc key l) with
  | Some m => In m l /\ forall x, In x l -> key x <= key m
  | None => l = []
  end.
Proof.
  unfold order_by_desc, first.
  pose proof (order_by_asc_perm (fun x => - key x) l) as P.
  pose proof (order_by_asc_sorted (fun x => - key x) l) as S.
  destruct (order_by_asc (fun x => - key x) l) as [|m r]; simpl.
  - now apply Permutation_nil in P.
  - split.
    + eapply Permutation_in; [exact P | now left].
    + intros x I. apply Permutation_sym in P.
      apply (Permutation_in _ P) in I. inversion S as [|? ? _ F]; subst.
      destruct I as [<-|I]; [lia|].
      rewrite Forall_forall in F. specialize (F x I).
      unfold key_le in F. lia.
Qed.

End QueryFacts.

(** ** Binding *)

Lemma fits_binds d n : fits n = true -> binds d n = true.
Proof. intros F. unfold binds. now rewrite F. Qed.

Lemma fits_opt_binds d x : fits_opt x = true -> binds_opt d x = true.
Proof. destruct x as [n|]; simpl; [apply fits_binds | reflexivity]. Qed.

Lemma stored_binds d n : In n (stored_ints d) -> binds d n = true.
Proof.
  intros I. unfold binds. apply orb_true_iff. right.
  apply existsb_exists. exists n. split; [exact I | apply Z.eqb_refl].
Qed.

(** In a store of 64-bit integers the guard is the 64-bit test. *)
Lemma binds_fits d n :
  Forall (fun k => fits k = true) (stored_ints d) -> binds d n = fits n.
Proof.
  intros W. unfold binds. destruct (fits n) eqn:F; [reflexivity|]. simpl.
  destruct (existsb (Z.eqb n) (stored_ints d)) eqn:E; [|reflexivity].
  apply existsb_exists in E. destruct E as (k & I & E).
  apply Z.eqb_eq in E. subst k. rewrite Forall_forall in W.
  rewrite (W n I) in F. discriminate.
Qed.

Lemma user_stored d u : In u (users d) -> In (User.id u) (stored_ints d).
Proof.
  intros I. unfold stored_ints. apply in_or_app. left. now apply in_map.
Qed.

Lemma message_stored d m :
  In m (messages d) ->
  In (Message.sender_id m) (stored_ints d)
  /\ (forall r, Message.recipient_id m = Some r -> In r (stored_ints d)).
Proof.
  intros I. unfold stored_ints. split.
  - apply in_or_app. right. apply in_or_app. left.
    apply in_flat_map. exists m. split; [exact I | now left].
  - intros r E. apply in_or_app. right. apply in_or_app. left.
    apply in_flat_map. exists m. split; [exact I|]. rewrite E. right. now left.
Qed.

Lemma unlock_stored d u :
  In u (dm_unlocks d) ->
  In (DMUnlock.user_id u) (stored_ints d)
  /\ In (DMUnlock.target_id u) (stored_ints d).
Proof.
  intros I. unfold stored_ints.
  split; do 3 (apply in_or_app; right); apply in_or_app; left;
    apply in_flat_map; exists u; (split; [exact I|]); simpl; auto.
Qed.

Lemma room_stored d r :
  In r (voice_rooms d) -> In (VoiceRoom.id r) (stored_ints d).
Proof.
  intros I. unfold stored_ints.
  do 4 (apply in_or_app; right). apply in_or_app. left.
  apply in_flat_map. exists r. split; [exact I | now left].
Qed.

Lemma participant_stored d p :
  In p (voice_participants d) ->
  In (VoiceParticipant.room_id p) (stored_ints d)
  /\ In (VoiceParticipant.user_id p) (stored_ints d).
Proof.
  intros I. unfold stored_ints.
  split; do 5 (apply in_or_app; right); apply in_or_app; left;
    apply in_flat_map; exists p; (split; [exact I|]); simpl; auto.
Qed.

(** The keys of a participant row that a query matches can be bound. *)
Lemma room_col_binds d p x :
  In p (voice_participants d) ->
  col_eqb (VoiceParticipant.room_id p) x = true -> binds_opt d x = true.
Proof.
  intros I E. destruct x as [n|]; simpl in *; [|reflexivity].
  apply Z.eqb_eq in E. subst n. apply stored_binds.
  now apply participant_stored.
Qed.

Lemma user_col_binds d p x :
  In p (voice_participants d) ->
  col_eqb (VoiceParticipant.user_id p) x = true -> binds_opt d x = true.
Proof.
  intros I E. destruct x as [n|]; simpl in *; [|reflexivity].
  apply Z.eqb_eq in E. subst n. apply stored_binds.
  now apply participant_stored.
Qed.

Lemma participant_binds d room_id user_id p :
  In p (voice_participants d) ->
  participant_of room_id user_id p = true ->
  binds_opt d room_id = true /\ binds_opt d user_id = true.
Proof.
  intros I P. unfold participant_of in P. apply andb_true_iff in P.
  destruct P as [R U]. split.
  - eapply room_col_binds; eauto.
  - eapply user_col_binds; eauto.
Qed.

Lemma found_participant_binds d room_id user_id p :
  first (filter (participant_of room_id user_id) (voice_participants d))
  = Some p ->
  binds_opt d room_id = true /\ binds_opt d user_id = true.
Proof.
  intros F. apply first_filter_In in F. destruct F as [I P].
  eapply participant_binds; eauto.
Qed.

Lemma with_role_binds d room_id role :
  filter (with_role room_id role) (voice_participants d) <> [] ->
  binds_opt d room_id = true.
Proof.
  intros NE.
  destruct (filter (with_role room_id role) (voice_participants d))
    as [|p l] eqn:F; [congruence|].
  assert (I : In p (filter (with_role room_id role) (voice_participants d)))
    by (rewrite F; now left).
  apply filter_In in I. destruct I as [I W].
  unfold with_role in W. apply andb_true_iff in W.
  eapply room_col_binds; [exact I | apply W].
Qed.

Lemma speakers_bind d room_id :
  (0 < speakers d room_id)%nat -> binds_opt d room_id = true.
Proof.
  intros L. apply with_role_binds with "speaker". intros E.
  unfold speakers in L. unfold with_role in E. rewrite E in L.
  simpl in L. lia.
Qed.

Lemma get_user_In d x u : get_user d x = Some u -> In u (users d).
Proof.
  destruct x as [n|]; simpl; [|discriminate]. intros H.
  now apply first_filter_In in H.
Qed.

(** The id of a user that a lookup finds can be bound. *)
Lemma found_binds d x u : get_user d x = Some u -> binds_opt d x = true.
Proof.
  destruct x as [n|]; simpl; [|reflexivity]. intros H.
  apply first_filter_In in H. destruct H as [I H].
  unfold has_id in H. apply Z.eqb_eq in H. subst n.
  apply stored_binds. now apply user_stored.
Qed.

(** ** DMGate *)

Lemma unlock_for_spec s r u :
  unlock_for s r u = true <->
  DMUnlock.user_id u = s /\ DMUnlock.target_id u = r.
Proof.
  unfold unlock_for. rewrite andb_true_iff, !Z.eqb_eq. reflexivity.
Qed.

Lemma unlock_live_spec now u :
  unlock_live now u = true <->
  DMUnlock.expires_at u = None \/
  exists e, DMUnlock.expires_at u = Some e /\ now < e.
Proof.
  unfold unlock_live. destruct (DMUnlock.expires_at u) as [e|].
  - rewrite Z.ltb_lt. split.
    + intros H. right. exists e. auto.
    + intros [H|(e' & H & L)]; [discriminate | congruence].
  - split; auto.
Qed.

Lemma no_active_unlock_gate now d s r :
  no_active_unlock now d s r -> unlock_active now d s r = false.
Proof.
  intros N. unfold unlock_active.
  destruct (first (filter (unlock_for s r) (dm_unlocks d))) as [u|] eqn:E;
    [|reflexivity].
  apply first_filter_In in E. destruct E as [I U].
  apply unlock_for_spec in U. destruct U. now apply N.
Qed.

(** [since] is the time of the latest reply, [datetime.min] without one. *)
Lemma since_latest_reply d s r :
  (forall m, In m (messages d) -> is_reply s r m = true ->
             Message.created_at m <= since d s r)
  /\ ((forall m, In m (messages d) -> is_reply s r m = false) ->
      since d s r = datetime_min)
  /\ (forall m0, In m0 (messages d) -> is_reply s r m0 = true ->
      exists m, In m (messages d) /\ is_reply s r m = true
                /\ since d s r = Message.created_at m).
Proof.
  unfold since, last_reply.
  pose proof (first_order_by_desc Message.created_at
                (filter (is_reply s r) (messages d))) as H.
  destruct (first (order_by_desc Message.created_at
                     (filter (is_reply s r) (messages d)))) as [m|].
  - destruct H as [I M]. apply filter_In in I. destruct I as [I R].
    repeat split.
    + intros x Ix Rx. apply M. apply filter_In. auto.
    + intros N. rewrite (N m I) in R. discriminate.
    + intros _ _ _. exists m. auto.
  - repeat split.
    + intros x Ix Rx.
      assert (J : In x (filter (is_reply s r) (messages d)))
        by (apply filter_In; auto).
      rewrite H in J. destruct J.
    + intros m0 I0 R0.
      assert (J : In m0 (filter (is_reply s r) (messages d)))
        by (apply filter_In; auto).
      rewrite H in J. destruct J.
Qed.

(** What [sent_count] counts. *)
Lemma sent_after_spec s r t m :
  sent_after s r t m = true <->
  Message.sender_id m = s /\ Message.recipient_id m = Some r
  /\ t < Message.created_at m.
Proof.
  unfold sent_after, opt_eqb. rewrite !andb_true_iff, Z.eqb_eq, Z.ltb_lt.
  destruct (Message.recipient_id m) as [x|].
  - rewrite Z.eqb_eq. split.
    + intros [[H1 H2] H3]. subst. auto.
    + intros (H1 & H2 & H3). inversion H2. auto.
  - split.
    + intros [[_ H] _]. discriminate.
    + intros (_ & H & _). discriminate.
Qed.

Lemma is_reply_spec s r m :
  is_reply s r m = true <->
  Message.sender_id m = r /\ Message.recipient_id m = Some s.
Proof.
  unfold is_reply, opt_eqb. rewrite andb_true_iff, Z.eqb_eq.
  destruct (Message.recipient_id m) as [x|].
  - rewrite Z.eqb_eq. split; intros [H1 H2]; split; congruence.
  - split; intros [_ H]; discriminate.
Qed.

(** The gate answers, with the count test, when both ids can be bound and
    no unlock is live. *)
Lemma gate_without_unlock now d s r :
  binds d s = true -> binds d r = true -> no_active_unlock now d s r ->
  dm_allowed now d s r = Some (sent_count d s r <? DM_FREE_MSG_LIMIT)%nat.
Proof.
  intros Bs Br NA. unfold dm_allowed.
  rewrite Bs, Br, (no_active_unlock_gate _ _ _ _ NA). reflexivity.
Qed.

(** The gate raises when an id cannot be bound, and [send_message] then
    stores nothing and answers "Error sending message." on the caller's
    connection. *)
Lemma send_message_unbindable sess sid data now stamp d s r :
  resolve_sender d sess = Some s -> s <> 0 ->
  sm_recipient_id data = Some r -> r <> 0 ->
  strip (str_or (sm_body data) "") <> ""%string ->
  binds d s && binds d r = false ->
  dm_allowed now d s r = None
  /\ sio_send_message sess sid data now stamp d
     = (d, [Emit "blocked_message" [("reason", JStr "Error sending message.")]
              sid]).
Proof.
  intros RS S0 RR R0 B NB.
  assert (G : dm_allowed now d s r = None).
  { unfold dm_allowed. now rewrite NB. }
  split; [exact G|]. unfold sio_send_message.
  apply Z.eqb_neq in S0. apply Z.eqb_neq in R0. apply String.eqb_neq in B.
  rewrite RS, S0, B, RR. simpl truthy_int. rewrite R0. simpl. rewrite G.
  reflexivity.
Qed.

(** C1.  For a sender [s] and a recipient [r], both 64-bit ids, with no
    live unlock, [dm_allowed] answers, and answers yes iff fewer than 3
    messages from [s] to [r] are later than the latest message from [r]
    to [s] ([datetime.min] without one).  A direct message (resolved
    non-zero sender, non-zero recipient, non-blank body) is then stored
    when the count is below 3; from 3 on the store is unchanged and the
    only effect is one [blocked_message] with the unlock reason, sent to
    the sender's room. *)
Theorem C1_free_message_gate sess sid data now stamp d s r :
  resolve_sender d sess = Some s -> s <> 0 -> fits s = true ->
  sm_recipient_id data = Some r -> r <> 0 -> fits r = true ->
  strip (str_or (sm_body data) "") <> ""%string ->
  no_active_unlock now d s r ->
  let n := List.length
             (filter (fun m => (Message.sender_id m =? s)
                               && opt_eqb (Message.recipient_id m) r
                               && (since d s r <? Message.created_at m))
                (messages d)) in
  ((forall m, In m (messages d) ->
      Message.sender_id m = r -> Message.recipient_id m = Some s ->
      Message.created_at m <= since d s r)
   /\ ((forall m, In m (messages d) ->
         ~ (Message.sender_id m = r /\ Message.recipient_id m = Some s)) ->
       since d s r = datetime_min)
   /\ (forall m0, In m0 (messages d) ->
       Message.sender_id m0 = r -> Message.recipient_id m0 = Some s ->
       exists m, In m (messages d)
                 /\ Message.sender_id m = r /\ Message.recipient_id m = Some s
                 /\ since d s r = Message.created_at m))
  /\ dm_allowed now d s r = Some (n <? 3)%nat
  /\ (dm_allowed now d s r = Some true <-> (n < 3)%nat)
  /\ ((n < 3)%nat ->
      messages (fst (sio_send_message sess sid data now stamp d))
      = (messages d ++ [new_message d data s stamp])%list)
  /\ ((3 <= n)%nat ->
      sio_send_message sess sid data now stamp d
      = (d, [Emit "blocked_message" [("reason", JStr unlock_reason)]
               (str_int s)])).
Proof.
  intros RS S0 Fs RR R0 Fr B NA n.
  assert (G : dm_allowed now d s r = Some (n <? 3)%nat).
  { apply gate_without_unlock; auto using fits_binds. }
  assert (Hs : (s =? 0) = false) by now apply Z.eqb_neq.
  assert (Hr : (r =? 0) = false) by now apply Z.eqb_neq.
  assert (Hb : (strip (str_or (sm_body data) "") =? "")%string = false)
    by now apply String.eqb_neq.
  split.
  { destruct (since_latest_reply d s r) as (L1 & L2 & L3). repeat split.
    - intros m I E1 E2. apply L1; [exact I|]. now apply is_reply_spec.
    - intros N. apply L2. intros m I.
      destruct (is_reply s r m) eqn:E; [|reflexivity].
      apply is_reply_spec in E. destruct (N m I E).
    - intros m0 I0 E1 E2.
      destruct (L3 m0 I0) as (m & I & R & E); [now apply is_reply_spec|].
      apply is_reply_spec in R. exists m. tauto. }
  split; [exact G|]. split; [|split].
  - rewrite G. split.
    + intros E. inversion E as [E']. now apply Nat.ltb_lt.
    + intros L. apply Nat.ltb_lt in L. now rewrite L.
  - intros L. unfold sio_send_message, new_message.
    rewrite RS, Hs, Hb, RR. simpl truthy_int. rewrite Hr. simpl negb.
    cbv iota. rewrite G.
    apply Nat.ltb_lt in L. rewrite L. reflexivity.
  - intros L. unfold sio_send_message.
    rewrite RS, Hs, Hb, RR. simpl truthy_int. rewrite Hr. simpl negb.
    cbv iota. rewrite G.
    apply Nat.ltb_ge in L. rewrite L. reflexivity.
Qed.

(** With one row per pair, the row [.first()] returns is the row of the
    pair. *)
Lemma unlock_unique_first d s r u :
  unlock_unique d -> In u (dm_unlocks d) -> unlock_for s r u = true ->
  first (filter (unlock_for s r) (dm_unlocks d)) = Some u.
Proof.
  unfold unlock_unique. induction (dm_unlocks d) as [|a l IH]; simpl.
  - intros _ [].
  - intros N I U. inversion N as [|? ? NI N']; subst.
    destruct (unlock_for s r a) eqn:E; simpl.
    + destruct I as [->|I]; [reflexivity|]. exfalso. apply NI.
      apply unlock_for_spec in E. apply unlock_for_spec in U.
      apply in_map_iff. exists u. split; [|exact I].
      unfold unlock_key. destruct E as [-> ->], U as [-> ->]. reflexivity.
    + destruct I as [->|I]; [congruence|]. now apply IH.
Qed.

(** An id that cannot be bound: the first query of [dm_allowed] raises. *)
Lemma dm_allowed_unbindable now d s r :
  binds d s = false \/ binds d r = false -> dm_allowed now d s r = None.
Proof.
  intros [B|B]; unfold dm_allowed; rewrite B; [reflexivity|].
  now rewrite andb_false_r.
Qed.

(** C5.  In a store with at most one unlock row per pair and for 64-bit
    ids, the unlock test of [dm_allowed] succeeds exactly when a row for
    (sender, recipient) exists whose expiry is null or later than [now];
    then [dm_allowed] answers yes without counting.  When the test fails
    (no row, or an expiry that is not in the future) the answer is the
    free-message count test. *)
Theorem C5_unlock_short_circuit now d s r :
  unlock_unique d -> fits s = true -> fits r = true ->
  (unlock_active now d s r = true <->
   exists u, In u (dm_unlocks d)
             /\ DMUnlock.user_id u = s /\ DMUnlock.target_id u = r
             /\ (DMUnlock.expires_at u = None
                 \/ exists e, DMUnlock.expires_at u = Some e /\ now < e))
  /\ (unlock_active now d s r = true -> dm_allowed now d s r = Some true)
  /\ (unlock_active now d s r = false ->
      dm_allowed now d s r
      = Some (count (filter (sent_after s r (since d s r)) (messages d))
              <? DM_FREE_MSG_LIMIT)%nat).
Proof.
  intros U Fs Fr. split; [|split].
  - unfold unlock_active. split.
    + destruct (first (filter (unlock_for s r) (dm_unlocks d))) as [u|] eqn:E;
        [|discriminate].
      intros L. apply first_filter_In in E. destruct E as [I F].
      apply unlock_for_spec in F. apply unlock_live_spec in L.
      exists u. tauto.
    + intros (u & I & Hs & Hr & L).
      rewrite (unlock_unique_first d s r u U I)
        by (apply unlock_for_spec; auto).
      apply unlock_live_spec. exact L.
  - intros A. unfold dm_allowed.
    rewrite (fits_binds d s Fs), (fits_binds d r Fr), A. reflexivity.
  - intros A. unfold dm_allowed.
    rewrite (fits_binds d s Fs), (fits_binds d r Fr), A. reflexivity.
Qed.

(** ** The unlock invariant along runs *)

Lemma unlock_unique_append d s r e :
  unlock_unique d ->
  first (filter (unlock_for s r) (dm_unlocks d)) = None ->
  NoDup (map unlock_key
           (dm_unlocks d ++ [DMUnlock.mk (next_id DMUnlock.id (dm_unlocks d))
                               s r e])).
Proof.
  unfold unlock_unique. intros N F.
  rewrite map_app. simpl.
  eapply Permutation_NoDup; [apply Permutation_cons_append|].
  constructor; [|exact N].
  intros I. apply in_map_iff in I. destruct I as (u & K & I).
  apply first_filter_None in F.
  rewrite filter_nil_iff in F. specialize (F u I).
  unfold unlock_key in K. inversion K.
  assert (T : unlock_for s r u = true) by (apply unlock_for_spec; auto).
  congruence.
Qed.

Lemma send_coins_unlock_unique sess data now stamp d :
  unlock_unique d -> unlock_unique (fst (sio_send_coins sess data now stamp d)).
Proof.
  intros U. unfold sio_send_coins.
  destruct (current_user d sess) as [cu|]; [|exact U].
  destruct (_ <=? 0); [exact U|].
  destruct (User.coins cu <? _); [exact U|].
  destruct (negb _); [exact U|].
  destruct (get_user d (sc_to data)) as [rcp|]; [|exact U].
  unfold unlock_unique. simpl.
  destruct (first (filter (unlock_for (User.id cu) (User.id rcp))
                     (dm_unlocks d))) eqn:F.
  - rewrite map_update_first; [exact U | reflexivity].
  - now apply unlock_unique_append.
Qed.

(** Case analysis on the tests of a handler. *)
Ltac break_tests :=
  repeat match goal with
         | |- context [match ?x with _ => _ end] => destruct x
         end.

Lemma step_unlock_unique r d : unlock_unique d -> unlock_unique (step r d).
Proof.
  intros U. destruct r; simpl.
  - unfold register. break_tests; exact U.
  - unfold set_user_status. destruct (current_user d sess); exact U.
  - unfold api_create_room. destruct (current_user d sess); exact U.
  - unfold sio_send_message, dm_allowed.
    destruct (resolve_sender d sess); [|exact U].
    break_tests; exact U.
  - now apply send_coins_unlock_unique.
  - unfold sio_voice_join. destruct (current_user d sess); [|exact U].
    destruct (negb _); [exact U|].
    destruct (first _); [exact U|]. destruct room_id; exact U.
  - unfold sio_voice_leave. destruct (current_user d sess); [|exact U].
    destruct (negb _); exact U.
  - unfold sio_voice_stage_decision.
    destruct (current_user d sess); [|exact U].
    destruct (sd_accept data); [|exact U].
    destruct (negb _); [exact U|].
    destruct (_ <=? _)%nat; [exact U|].
    destruct (negb _); [exact U|]. simpl.
    destruct (first _); exact U.
  - unfold sio_voice_comment. destruct (current_user d sess); [|exact U].
    destruct (_ =? _)%string; [exact U|]. destruct room_id; [|exact U].
    destruct (negb _); exact U.
Qed.

(** Every store the application reaches has one unlock row per pair. *)
Lemma reachable_unlock_unique d : reachable d -> unlock_unique d.
Proof.
  induction 1 as [|r d R IH].
  - constructor.
  - now apply step_unlock_unique.
Qed.

(** ** CoinLedger *)

Lemma get_user_id d x u : get_user d x = Some u -> x = Some (User.id u).
Proof.
  destruct x as [n|]; simpl; [|discriminate].
  intros H. apply first_filter_In in H. destruct H as [_ H].
  unfold has_id in H. apply Z.eqb_eq in H. now subst.
Qed.

Lemma get_user_row d x u :
  get_user d x = Some u -> get_user d (Some (User.id u)) = Some u.
Proof. intros H. now rewrite <- (get_user_id d x u H). Qed.

(** C3.  A transfer of a positive amount larger than the payer's balance
    is answered by the one event [blocked_message] "Not enough coins." to
    the payer, and the store (balances, coin transactions, unlocks) is
    unchanged. *)
Theorem C3_insufficient_funds sess data now stamp d cu a :
  current_user d sess = Some cu ->
  sc_amount data = Some a -> 0 < a -> User.coins cu < a ->
  sio_send_coins sess data now stamp d
  = (d, [Emit "blocked_message" [("reason", JStr "Not enough coins.")]
           (str_int (User.id cu))]).
Proof.
  intros C A P L. unfold sio_send_coins. rewrite C, A.
  replace (a <=? 0) with false by (symmetry; apply Z.leb_gt; lia).
  replace (User.coins cu <? a) with true by (symmetry; apply Z.ltb_lt; lia).
  reflexivity.
Qed.

(** C8 as the code has it.  A transfer whose amount is zero, negative or
    missing is dropped: no effect at all, no event to the sender, and the
    store is unchanged. *)
Theorem C8_nonpositive_amount_dropped sess data now stamp d cu :
  current_user d sess = Some cu ->
  match sc_amount data with Some a => a | None => 0 end <= 0 ->
  sio_send_coins sess data now stamp d = (d, []).
Proof.
  intros C A. unfold sio_send_coins. rewrite C.
  replace (_ <=? 0) with true by (symmetry; apply Z.leb_le; exact A).
  reflexivity.
Qed.

(** The rows of a successful transfer. *)
Section Transfer.
Variables (sess : Session) (data : send_coins_data) (now stamp : Z) (d : DB).
Variables (cu rcp : User.t) (a : Z).
Hypothesis Hcu : current_user d sess = Some cu.
Hypothesis Ha : sc_amount data = Some a.
Hypothesis Hpos : 0 < a.
Hypothesis Hfunds : a <= User.coins cu.
Hypothesis Hrcp : get_user d (sc_to data) = Some rcp.

Let d' := fst (sio_send_coins sess data now stamp d).
Let payer := User.id cu.
Let payee := User.id rcp.
Let expiry := Some (now + timedelta_days 30).

Lemma transfer_users :
  users d' =
  update_first (has_id payee) (fun u => User.set_coins (User.coins u + a) u)
    (update_first (has_id payer)
       (fun u => User.set_coins (User.coins u - a) u) (users d)).
Proof.
  unfold d', sio_send_coins. rewrite Hcu, Ha.
  replace (a <=? 0) with false by (symmetry; apply Z.leb_gt; lia).
  replace (User.coins cu <? a) with false by (symmetry; apply Z.ltb_ge; lia).
  rewrite (found_binds _ _ _ Hrcp), Hrcp. reflexivity.
Qed.

Lemma transfer_transactions :
  coin_transactions d' =
  (coin_transactions d ++
   [CoinTransaction.mk (next_id CoinTransaction.id (coin_transactions d))
      payer payee a stamp "gift"])%list.
Proof.
  unfold d', sio_send_coins. rewrite Hcu, Ha.
  replace (a <=? 0) with false by (symmetry; apply Z.leb_gt; lia).
  replace (User.coins cu <? a) with false by (symmetry; apply Z.ltb_ge; lia).
  rewrite (found_binds _ _ _ Hrcp), Hrcp. reflexivity.
Qed.

Lemma transfer_unlocks :
  dm_unlocks d' =
  match first (filter (unlock_for payer payee) (dm_unlocks d)) with
  | None =>
      (dm_unlocks d ++
       [DMUnlock.mk (next_id DMUnlock.id (dm_unlocks d)) payer payee expiry])%list
  | Some _ =>
      update_first (unlock_for payer payee) (DMUnlock.set_expires_at expiry)
        (dm_unlocks d)
  end.
Proof.
  unfold d', sio_send_coins. rewrite Hcu, Ha.
  replace (a <=? 0) with false by (symmetry; apply Z.leb_gt; lia).
  replace (User.coins cu <? a) with false by (symmetry; apply Z.ltb_ge; lia).
  rewrite (found_binds _ _ _ Hrcp), Hrcp. reflexivity.
Qed.

Lemma payer_rows : exists r, filter (has_id payer) (users d) = cu :: r.
Proof.
  pose proof (get_user_row _ _ _ Hcu) as H. simpl in H. unfold first in H.
  fold payer in H.
  destruct (filter (has_id payer) (users d)) as [|x r]; [discriminate|].
  exists r. simpl in H. congruence.
Qed.

Lemma payee_rows : exists r, filter (has_id payee) (users d) = rcp :: r.
Proof.
  pose proof (get_user_row _ _ _ Hrcp) as H. simpl in H. unfold first in H.
  fold payee in H.
  destruct (filter (has_id payee) (users d)) as [|x r]; [discriminate|].
  exists r. simpl in H. congruence.
Qed.

Lemma transfer_distinct :
  payer <> payee ->
  get_user d' (Some payer) = Some (User.set_coins (User.coins cu - a) cu)
  /\ get_user d' (Some payee) = Some (User.set_coins (User.coins rcp + a) rcp).
Proof.
  intros NE. simpl. rewrite transfer_users. split.
  - rewrite filter_update_first_other.
    + rewrite filter_update_first_same by (intros x H; exact H).
      destruct payer_rows as [r ->]. reflexivity.
    + unfold has_id. simpl. intros x H. apply Z.eqb_eq in H.
      split; apply Z.eqb_neq; lia.
  - rewrite filter_update_first_same by (intros x H; exact H).
    rewrite filter_update_first_other.
    + destruct payee_rows as [r ->]. reflexivity.
    + unfold has_id. simpl. intros x H. apply Z.eqb_eq in H.
      split; apply Z.eqb_neq; lia.
Qed.

Lemma transfer_self :
  payer = payee -> balance d' payer = Some (User.coins cu).
Proof.
  intros E. unfold balance. simpl. rewrite transfer_users, <- E.
  rewrite !filter_update_first_same by (intros x H; exact H).
  destruct payer_rows as [r ->]. simpl. f_equal. lia.
Qed.

Lemma transfer_others n :
  n <> payer -> n <> payee -> get_user d' (Some n) = get_user d (Some n).
Proof.
  intros N1 N2. simpl. rewrite transfer_users.
  rewrite !filter_update_first_other; [reflexivity | |];
    unfold has_id; simpl; intros x H; apply Z.eqb_eq in H;
    split; apply Z.eqb_neq; lia.
Qed.

End Transfer.

Lemma unique_filter l s r u :
  NoDup (map unlock_key l) -> In u l -> unlock_for s r u = true ->
  filter (unlock_for s r) l = [u].
Proof.
  induction l as [|x l IH]; simpl; [intros _ []|].
  intros N I U. inversion N as [|? ? NI N']; subst.
  assert (K : forall y, In y l -> unlock_for s r x = true ->
                        unlock_for s r y = false).
  { intros y Iy Ux. destruct (unlock_for s r y) eqn:Uy; [|reflexivity].
    exfalso. apply NI. apply in_map_iff. exists y. split; [|exact Iy].
    apply unlock_for_spec in Ux. apply unlock_for_spec in Uy.
    unfold unlock_key. destruct Ux as [-> ->], Uy as [-> ->]. reflexivity. }
  destruct (unlock_for s r x) eqn:E.
  - destruct I as [->|I]; [|rewrite (K u I eq_refl) in U; discriminate].
    f_equal. apply filter_nil_iff. intros y Iy. now apply K.
  - destruct I as [->|I]; [congruence|]. now apply IH.
Qed.

(** The upsert of the unlock row: appended when the pair has none,
    refreshed in place otherwise; either way the pair has one row. *)
Lemma transfer_unlock_upsert sess data now stamp d cu rcp a :
  current_user d sess = Some cu ->
  sc_amount data = Some a -> 0 < a -> a <= User.coins cu ->
  get_user d (sc_to data) = Some rcp ->
  unlock_unique d ->
  let d' := fst (sio_send_coins sess data now stamp d) in
  let expiry := Some (now + timedelta_days 30) in
  match first (filter (unlock_for (User.id cu) (User.id rcp)) (dm_unlocks d)) with
  | None =>
      let u := DMUnlock.mk (next_id DMUnlock.id (dm_unlocks d))
                 (User.id cu) (User.id rcp) expiry in
      dm_unlocks d' = (dm_unlocks d ++ [u])%list
      /\ filter (unlock_for (User.id cu) (User.id rcp)) (dm_unlocks d') = [u]
  | Some u0 =>
      List.length (dm_unlocks d') = List.length (dm_unlocks d)
      /\ map DMUnlock.id (dm_unlocks d') = map DMUnlock.id (dm_unlocks d)
      /\ filter (unlock_for (User.id cu) (User.id rcp)) (dm_unlocks d')
         = [DMUnlock.set_expires_at expiry u0]
  end.
Proof.
  intros Hcu Ha Hpos Hfunds Hrcp U d' expiry.
  pose proof (transfer_unlocks sess data now stamp d cu rcp a
                Hcu Ha Hpos Hfunds Hrcp) as E.
  fold d' in E.
  destruct (first (filter (unlock_for (User.id cu) (User.id rcp))
                     (dm_unlocks d))) as [u0|] eqn:F.
  - rewrite E. split; [apply update_first_length|].
    split; [apply map_update_first; reflexivity|].
    rewrite filter_update_first_same by (intros x H; exact H).
    apply first_filter_In in F. destruct F as [I P].
    rewrite (unique_filter _ _ _ u0 U I P). reflexivity.
  - intros u. split; [exact E|]. rewrite E.
    apply unique_filter.
    + now apply unlock_unique_append.
    + apply in_or_app. right. now left.
    + apply unlock_for_spec. auto.
Qed.

(** C4.  A successful transfer of [a] from [cu] to [rcp] (both found,
    [0 < a <= balance]) in a store with one unlock row per pair:
    - debits the payer and credits the payee by [a] (when they are the
      same user the two updates cancel) and touches no other user;
    - appends one coin transaction;
    - leaves exactly one unlock row for (payer, payee), with expiry
      [now] + 30 days: appended when the pair had none, the existing row
      refreshed otherwise;
    - keeps the store at one unlock row per pair, so a second successful
      transfer between the same pair refreshes that row and adds none. *)
Theorem C4_transfer_upserts_unlock sess data now stamp d cu rcp a :
  current_user d sess = Some cu ->
  sc_amount data = Some a -> 0 < a -> a <= User.coins cu ->
  get_user d (sc_to data) = Some rcp ->
  unlock_unique d ->
  let d' := fst (sio_send_coins sess data now stamp d) in
  let payer := User.id cu in
  let payee := User.id rcp in
  (payer <> payee ->
   balance d' payer = Some (User.coins cu - a)
   /\ balance d' payee = Some (User.coins rcp + a))
  /\ (payer = payee -> balance d' payer = Some (User.coins cu))
  /\ (forall n, n <> payer -> n <> payee ->
      get_user d' (Some n) = get_user d (Some n))
  /\ coin_transactions d' =
     (coin_transactions d ++
      [CoinTransaction.mk (next_id CoinTransaction.id (coin_transactions d))
         payer payee a stamp "gift"])%list
  /\ (exists u, filter (unlock_for payer payee) (dm_unlocks d') = [u]
                /\ DMUnlock.expires_at u = Some (now + timedelta_days 30))
  /\ (first (filter (unlock_for payer payee) (dm_unlocks d)) = None ->
      List.length (dm_unlocks d') = S (List.length (dm_unlocks d)))
  /\ (first (filter (unlock_for payer payee) (dm_unlocks d)) <> None ->
      List.length (dm_unlocks d') = List.length (dm_unlocks d))
  /\ unlock_unique d'
  /\ (forall sess2 data2 now2 stamp2 cu2 rcp2 a2,
      current_user d' sess2 = Some cu2 ->
      sc_amount data2 = Some a2 -> 0 < a2 -> a2 <= User.coins cu2 ->
      get_user d' (sc_to data2) = Some rcp2 ->
      User.id cu2 = payer -> User.id rcp2 = payee ->
      let d'' := fst (sio_send_coins sess2 data2 now2 stamp2 d') in
      List.length (dm_unlocks d'') = List.length (dm_unlocks d')
      /\ exists u, filter (unlock_for payer payee) (dm_unlocks d'') = [u]
                   /\ DMUnlock.expires_at u = Some (now2 + timedelta_days 30)).
Proof.
  intros Hcu Ha Hpos Hfunds Hrcp U d' payer payee.
  pose proof (transfer_unlock_upsert sess data now stamp d cu rcp a
                Hcu Ha Hpos Hfunds Hrcp U) as Up.
  cbv zeta in Up. subst d' payer payee.
  set (d' := fst (sio_send_coins sess data now stamp d)) in *.
  assert (U' : unlock_unique d') by now apply send_coins_unlock_unique.
  assert (Row : exists u,
             filter (unlock_for (User.id cu) (User.id rcp)) (dm_unlocks d') = [u]
             /\ DMUnlock.expires_at u = Some (now + timedelta_days 30)).
  { destruct (first (filter (unlock_for (User.id cu) (User.id rcp))
                       (dm_unlocks d))) as [u0|].
    - destruct Up as (_ & _ & F). eexists. split; [exact F | reflexivity].
    - destruct Up as (_ & F). eexists. split; [exact F | reflexivity]. }
  split.
  { intros NE. unfold balance, d'.
    destruct (transfer_distinct sess data now stamp d cu rcp a
                Hcu Ha Hpos Hfunds Hrcp NE) as [-> ->].
    split; reflexivity. }
  split.
  { intros E. unfold d'.
    exact (transfer_self sess data now stamp d cu rcp a
             Hcu Ha Hpos Hfunds Hrcp E). }
  split.
  { intros n N1 N2. unfold d'.
    exact (transfer_others sess data now stamp d cu rcp a
             Hcu Ha Hpos Hfunds Hrcp n N1 N2). }
  split.
  { unfold d'.
    exact (transfer_transactions sess data now stamp d cu rcp a
             Hcu Ha Hpos Hfunds Hrcp). }
  split; [exact Row|].
  split.
  { intros F. rewrite F in Up. destruct Up as [-> _].
    rewrite length_app. simpl. lia. }
  split.
  { intros F.
    destruct (first (filter (unlock_for (User.id cu) (User.id rcp))
                       (dm_unlocks d))); [|congruence].
    now destruct Up. }
  split; [exact U'|].
  intros sess2 data2 now2 stamp2 cu2 rcp2 a2 Hcu2 Ha2 Hpos2 Hfunds2 Hrcp2 E1 E2.
  pose proof (transfer_unlock_upsert sess2 data2 now2 stamp2 d' cu2 rcp2 a2
                Hcu2 Ha2 Hpos2 Hfunds2 Hrcp2 U') as Up2.
  cbv zeta in Up2. rewrite E1, E2 in Up2.
  destruct Row as (u & F & _). unfold first in Up2. rewrite F in Up2.
  simpl in Up2. destruct Up2 as (L & _ & F2).
  split; [exact L|]. eexists. split; [exact F2 | reflexivity].
Qed.

(** ** RoomCoordinator *)

Lemma participant_of_spec room_id user_id p :
  participant_of room_id user_id p = true <->
  room_id = Some (VoiceParticipant.room_id p)
  /\ user_id = Some (VoiceParticipant.user_id p).
Proof.
  unfold participant_of, col_eqb. rewrite andb_true_iff.
  destruct room_id as [r|], user_id as [u|]; rewrite ?Z.eqb_eq;
    split; intros [H1 H2]; try discriminate; split; congruence.
Qed.

Lemma participant_of_other r u r' u' p :
  r' <> r \/ u' <> u ->
  participant_of r u p = true -> participant_of r' u' p = false.
Proof.
  intros NE P. destruct (participant_of r' u' p) eqn:Q; [|reflexivity].
  apply participant_of_spec in P. apply participant_of_spec in Q.
  destruct P as [-> ->], Q as [-> ->]. destruct NE as [N|N]; congruence.
Qed.

(** C2.  An accepted stage decision by an authenticated caller.  With 10
    or more speakers in the room the only effect is [voice_stage_full] to
    the target's room and the store is unchanged.  With fewer than 10 and
    a participant row [vp] for the target, [voice_stage_granted] goes to
    the voice room, the target's row is [vp] with role speaker, and the
    rows of every other (room, user) pair are as before. *)
Theorem C2_stage_decision_accept sess data d cu :
  current_user d sess = Some cu ->
  sd_accept data = true ->
  let room_id := sd_room_id data in
  let target_id := sd_user_id data in
  let out := sio_voice_stage_decision sess data d in
  ((10 <= speakers d room_id)%nat ->
   out = (d, [Emit "voice_stage_full" [] (str_opt target_id)]))
  /\ ((speakers d room_id < 10)%nat ->
      forall vp,
        first (filter (participant_of room_id target_id)
                 (voice_participants d)) = Some vp ->
        snd out = [Emit "voice_stage_granted"
                     [("user_id", jopt_int target_id)]
                     (voice_room_name room_id)]
        /\ first (filter (participant_of room_id target_id)
                    (voice_participants (fst out)))
           = Some (VoiceParticipant.set_role "speaker" vp)
        /\ List.length (voice_participants (fst out))
           = List.length (voice_participants d)
        /\ forall r' u', r' <> room_id \/ u' <> target_id ->
             filter (participant_of r' u') (voice_participants (fst out))
             = filter (participant_of r' u') (voice_participants d)).
Proof.
  intros C A room_id target_id out.
  unfold out, sio_voice_stage_decision.
  rewrite C, A. fold room_id target_id. split.
  - intros L. rewrite (speakers_bind d room_id) by lia.
    apply Nat.leb_le in L. unfold MAX_STAGE. simpl negb. cbv iota.
    change (count (filter (with_role room_id "speaker")
                     (voice_participants d))) with (speakers d room_id).
    rewrite L. reflexivity.
  - intros L vp F. apply Nat.leb_gt in L. unfold MAX_STAGE.
    destruct (found_participant_binds _ _ _ _ F) as [BR BT].
    rewrite BR. simpl negb. cbv iota.
    change (count (filter (with_role room_id "speaker")
                     (voice_participants d))) with (speakers d room_id).
    rewrite L, BT, F. simpl. split; [reflexivity|]. split; [|split].
    + rewrite filter_update_first_same by (intros x H; exact H).
      unfold first in F |- *.
      destruct (filter (participant_of room_id target_id)
                  (voice_participants d)); simpl in *; congruence.
    + apply update_first_length.
    + intros r' u' NE. apply filter_update_first_other.
      intros x P. split.
      * eapply participant_of_other; eauto.
      * eapply participant_of_other; [exact NE|]. exact P.
Qed.

(** An accepted decision whose room id cannot be bound raises at the
    count, and one whose target cannot be bound raises at the lookup of
    the row: the [except] clause rolls back and no event leaves. *)
Lemma stage_decision_unbindable sess data d cu :
  current_user d sess = Some cu ->
  sd_accept data = true ->
  binds_opt d (sd_room_id data) = false
  \/ ((speakers d (sd_room_id data) < MAX_STAGE)%nat
      /\ binds_opt d (sd_user_id data) = false) ->
  sio_voice_stage_decision sess data d = (d, []).
Proof.
  intros C A H. unfold sio_voice_stage_decision. rewrite C, A.
  destruct H as [R|[L T]].
  - rewrite R. reflexivity.
  - destruct (binds_opt d (sd_room_id data)); [|reflexivity]. simpl negb.
    cbv iota.
    change (count (filter (with_role (sd_room_id data) "speaker")
                     (voice_participants d)))
      with (speakers d (sd_room_id data)).
    apply Nat.leb_gt in L. rewrite L, T. reflexivity.
Qed.

(** C10.  An accepted stage decision with fewer than 10 speakers and no
    participant row for the target still sends [voice_stage_granted] for
    the target to the voice room; the store is unchanged, so no row is
    created.  The two ids of the payload are 64-bit integers or absent
    (otherwise see [stage_decision_unbindable]). *)
Theorem C10_grant_without_participant sess data d cu :
  current_user d sess = Some cu ->
  sd_accept data = true ->
  fits_opt (sd_room_id data) = true ->
  fits_opt (sd_user_id data) = true ->
  (speakers d (sd_room_id data) < 10)%nat ->
  first (filter (participant_of (sd_room_id data) (sd_user_id data))
           (voice_participants d)) = None ->
  sio_voice_stage_decision sess data d
  = (d, [Emit "voice_stage_granted"
           [("user_id", jopt_int (sd_user_id data))]
           (voice_room_name (sd_room_id data))]).
Proof.
  intros C A FR FT L F.
  unfold sio_voice_stage_decision. rewrite C, A.
  rewrite (fits_opt_binds d _ FR), (fits_opt_binds d _ FT). simpl negb.
  cbv iota.
  change (count (filter (with_role (sd_room_id data) "speaker")
                   (voice_participants d)))
    with (speakers d (sd_room_id data)).
  apply Nat.leb_gt in L. unfold MAX_STAGE. rewrite L, F. reflexivity.
Qed.

(** A room id that cannot be bound: [voice_join] has joined the socket
    room and reports an error to the caller's room, [voice_leave] has
    left the socket room and says nothing; the store is as before. *)
Lemma voice_join_unbindable sess room_id stamp d cu :
  current_user d sess = Some cu ->
  binds_opt d room_id = false ->
  sio_voice_join sess room_id stamp d
  = (d, [JoinRoom (voice_room_name room_id);
         Emit "blocked_message"
           [("reason", JStr "Error joining voice room.")]
           (str_int (User.id cu))]).
Proof.
  intros C B. unfold sio_voice_join. rewrite C, B. reflexivity.
Qed.

Lemma voice_leave_unbindable sess room_id d cu :
  current_user d sess = Some cu ->
  binds_opt d room_id = false ->
  sio_voice_leave sess room_id d
  = (d, [LeaveRoom (voice_room_name room_id)]).
Proof.
  intros C B. unfold sio_voice_leave. rewrite C, B. reflexivity.
Qed.

(** C6.  [voice_leave] removes every row of (room, user), whatever its
    role, and touches no other pair; a [voice_join] right after it stores
    one row for the pair, with role listener, and announces that role.
    The room id [r] is a 64-bit integer: for another one both handlers
    raise, see [voice_leave_unbindable] and [voice_join_unbindable]. *)
Theorem C6_leave_then_rejoin sess r stamp d cu :
  current_user d sess = Some cu ->
  fits r = true ->
  let me := Some (User.id cu) in
  let d1 := fst (sio_voice_leave sess (Some r) d) in
  let out := sio_voice_join sess (Some r) stamp d1 in
  filter (participant_of (Some r) me) (voice_participants d1) = []
  /\ (forall r' u', r' <> Some r \/ u' <> me ->
        filter (participant_of r' u') (voice_participants d1)
        = filter (participant_of r' u') (voice_participants d))
  /\ (exists vp,
        filter (participant_of (Some r) me) (voice_participants (fst out)) = [vp]
        /\ VoiceParticipant.role vp = "listener"
        /\ VoiceParticipant.room_id vp = r
        /\ VoiceParticipant.user_id vp = User.id cu)
  /\ snd out = [JoinRoom (voice_room_name (Some r));
                Emit "voice_user_joined"
                  [("user_id", JInt (User.id cu)); ("role", JStr "listener")]
                  (voice_room_name (Some r))].
Proof.
  intros C FR me d1 out.
  assert (B : forall d0, binds_opt d0 (Some r) = true)
    by (intros d0; now apply fits_binds).
  assert (E1 : voice_participants d1
               = delete_where (participant_of (Some r) me)
                   (voice_participants d)).
  { unfold d1, sio_voice_leave. rewrite C, B. reflexivity. }
  assert (C1 : current_user d1 sess = Some cu).
  { unfold d1, sio_voice_leave. rewrite C, B. exact C. }
  assert (N : filter (participant_of (Some r) me) (voice_participants d1) = []).
  { rewrite E1. apply delete_where_none. }
  split; [exact N|]. split.
  { intros r' u' NE. rewrite E1. apply filter_delete_where_other.
    intros x Q. destruct (participant_of (Some r) me x) eqn:P; [|reflexivity].
    rewrite (participant_of_other _ _ _ _ _ NE P) in Q. discriminate. }
  unfold out, sio_voice_join. rewrite C1, B. fold me.
  apply first_filter_None in N. rewrite N. simpl. split; [|reflexivity].
  eexists. split.
  - rewrite filter_app. apply first_filter_None in N. rewrite N. simpl.
    unfold participant_of, me. simpl. rewrite !Z.eqb_refl. reflexivity.
  - repeat split.
Qed.

(** *** Room creation *)

Lemma next_id_fresh {A} (id : A -> Z) (l : list A) x :
  In x l -> id x < next_id id l.
Proof.
  unfold next_id. induction l as [|y l IH]; [intros []|].
  cbn [fold_right In]. intros [->|I]; [lia|]. specialize (IH I). lia.
Qed.

(** C9 as the code has it.  [api_create_room] by a logged-in user appends
    a room with a fresh id and a participant row (new room, creator,
    host).  The participants of the new room are the rows that already
    carried its id followed by that host row: when no earlier row carries
    the id, the room has exactly one participant, the creator as host. *)
Theorem C9_create_room_host sess name stamp_room stamp_vp d cu :
  current_user d sess = Some cu ->
  let d' := fst (api_create_room sess name stamp_room stamp_vp d) in
  let rid := next_id VoiceRoom.id (voice_rooms d) in
  let host := VoiceParticipant.mk
                (next_id VoiceParticipant.id (voice_participants d))
                rid (User.id cu) "host" stamp_vp in
  (exists room, voice_rooms d' = (voice_rooms d ++ [room])%list
                /\ VoiceRoom.id room = rid
                /\ VoiceRoom.created_by room = User.id cu)
  /\ (forall room, In room (voice_rooms d) -> VoiceRoom.id room <> rid)
  /\ voice_participants d' = (voice_participants d ++ [host])%list
  /\ filter (in_voice_room rid) (voice_participants d')
     = (filter (in_voice_room rid) (voice_participants d) ++ [host])%list
  /\ ((forall p, In p (voice_participants d) ->
                 VoiceParticipant.room_id p <> rid) ->
      filter (in_voice_room rid) (voice_participants d') = [host]).
Proof.
  intros C d' rid host.
  assert (E : voice_participants d' = (voice_participants d ++ [host])%list).
  { unfold d', api_create_room. rewrite C. reflexivity. }
  assert (F : filter (in_voice_room rid) (voice_participants d')
              = (filter (in_voice_room rid) (voice_participants d)
                 ++ [host])%list).
  { rewrite E, filter_app. simpl. unfold in_voice_room at 2. simpl.
    rewrite Z.eqb_refl. reflexivity. }
  split.
  { unfold d', api_create_room. rewrite C. simpl. eexists.
    split; [reflexivity|]. split; reflexivity. }
  split.
  { intros room I. pose proof (next_id_fresh VoiceRoom.id _ _ I).
    unfold rid. lia. }
  split; [exact E|]. split; [exact F|].
  intros N. rewrite F.
  replace (filter (in_voice_room rid) (voice_participants d)) with
    (@nil VoiceParticipant.t); [reflexivity|].
  symmetry. apply filter_nil_iff. intros p I.
  unfold in_voice_room. apply Z.eqb_neq. now apply N.
Qed.

(** ** Message history *)

Lemma sorted_app_inv {A} (R : A -> A -> Prop) (l1 l2 : list A) :
  StronglySorted R (l1 ++ l2) ->
  StronglySorted R l1 /\ forall x y, In x l1 -> In y l2 -> R x y.
Proof.
  induction l1 as [|a l1 IH]; simpl; intros S.
  - split; [constructor | intros x y []].
  - inversion S as [|? ? S' F]; subst. destruct (IH S') as [S1 X].
    rewrite Forall_forall in F. split.
    + constructor; [exact S1|]. apply Forall_forall.
      intros x I. apply F. apply in_or_app. now left.
    + intros x y [<-|I] J; [|now apply X].
      apply F. apply in_or_app. now right.
Qed.

(** The page [history] returns: ascending in [created_at], at most 100
    rows, all of them matching, and no row left out is earlier than a
    row returned. *)
Lemma history_spec p d :
  StronglySorted (key_le Message.created_at) (history p d)
  /\ (List.length (history p d) <= 100)%nat
  /\ (forall m, In m (history p d) -> In m (messages d) /\ p m = true)
  /\ exists rest,
       Permutation (history p d ++ rest) (filter p (messages d))
       /\ (forall m m', In m (history p d) -> In m' rest ->
             Message.created_at m <= Message.created_at m')
       /\ ((List.length (filter p (messages d)) <= 100)%nat -> rest = []).
Proof.
  unfold history, limit.
  set (sorted := order_by_asc Message.created_at (filter p (messages d))).
  pose proof (order_by_asc_sorted Message.created_at
                (filter p (messages d))) as S.
  pose proof (order_by_asc_perm Message.created_at
                (filter p (messages d))) as P.
  fold sorted in S, P.
  rewrite <- (firstn_skipn 100 sorted) in S.
  apply sorted_app_inv in S. destruct S as [S X].
  split; [exact S|]. split; [apply firstn_le_length|]. split.
  - intros m I. apply filter_In. eapply Permutation_in; [exact P|].
    rewrite <- (firstn_skipn 100 sorted). apply in_or_app. now left.
  - exists (skipn 100 sorted). split; [|split].
    + rewrite firstn_skipn. exact P.
    + exact X.
    + intros L. apply skipn_all2.
      rewrite (Permutation_length P). exact L.
Qed.

(** Rows of one creation time come in the order of the table, and the
    page keeps the first of them. *)
Lemma history_stable p d k :
  exists rest,
    filter (fun m => Message.created_at m =? k) (filter p (messages d))
    = (filter (fun m => Message.created_at m =? k) (history p d)
       ++ rest)%list.
Proof.
  unfold history, limit.
  rewrite <- (order_by_asc_stable Message.created_at k
                (filter p (messages d))).
  set (sorted := order_by_asc Message.created_at (filter p (messages d))).
  exists (filter (fun m => Message.created_at m =? k) (skipn 100 sorted)).
  rewrite <- filter_app, firstn_skipn. reflexivity.
Qed.

(** A [recipient_id] that cannot be bound: the query raises, the route
    has no [try], and the request ends in a 500. *)
Lemma api_messages_unbindable sess room recipient_id d cu :
  current_user d sess = Some cu ->
  truthy_str room = false ->
  truthy_int recipient_id = true ->
  binds_opt d recipient_id = false ->
  api_messages sess room recipient_id d = ServerError.
Proof.
  intros C R T B. unfold api_messages. rewrite C, R, T, B. reflexivity.
Qed.

(** C7 as the code has it.  For a logged-in user: a request with neither
    a non-empty [room] nor a non-zero [recipient_id] is answered 400 with
    an error; a request with a non-empty [room] is served from that room
    whether or not a [recipient_id] comes with it; otherwise a non-zero
    64-bit [recipient_id] selects the conversation between the two users.
    The answer lists the matching messages ascending by creation time,
    those of one creation time in the order of the table, at most 100 of
    them, the earliest ones. *)
Theorem C7_history_fetch sess room recipient_id d cu :
  current_user d sess = Some cu ->
  (truthy_str room = false -> truthy_int recipient_id = false ->
   api_messages sess room recipient_id d
   = JsonObject 400 [("error", JStr "room or recipient_id required")])
  /\ (forall r, room = Some r -> r <> ""%string ->
      api_messages sess room recipient_id d
      = JsonList 200 (map (message_payload d) (history (in_room r) d)))
  /\ (forall n, truthy_str room = false -> recipient_id = Some n -> n <> 0 ->
      fits n = true ->
      api_messages sess room recipient_id d
      = JsonList 200
          (map (message_payload d) (history (between (User.id cu) n) d)))
  /\ (forall p,
      StronglySorted (key_le Message.created_at) (history p d)
      /\ (List.length (history p d) <= 100)%nat
      /\ (forall m, In m (history p d) -> In m (messages d) /\ p m = true)
      /\ (exists rest,
           Permutation (history p d ++ rest) (filter p (messages d))
           /\ (forall m m', In m (history p d) -> In m' rest ->
                 Message.created_at m <= Message.created_at m')
           /\ ((List.length (filter p (messages d)) <= 100)%nat -> rest = []))
      /\ forall k, exists later,
           filter (fun m => Message.created_at m =? k) (filter p (messages d))
           = (filter (fun m => Message.created_at m =? k) (history p d)
              ++ later)%list).
Proof.
  intros C. unfold api_messages. rewrite C.
  split; [|split; [|split]].
  - intros -> ->. reflexivity.
  - intros r -> N. simpl. apply String.eqb_neq in N. rewrite N. reflexivity.
  - intros n -> -> N F. simpl. apply Z.eqb_neq in N. rewrite N. simpl.
    rewrite (fits_binds d n F). reflexivity.
  - intros p. destruct (history_spec p d) as (S & L & I & R).
    repeat (split; [assumption|]). intros k. apply history_stable.
Qed.

(** ** The theorems on sample runs *)

Lemma run_reachable rs d : reachable d -> reachable (run rs d).
Proof.
  revert d. induction rs as [|r rs IH]; intros d R; [exact R|].
  apply IH. now constructor.
Qed.

(** The sample stores are stores the application reaches. *)
Lemma ex_unlocked_reachable : reachable ex_unlocked.
Proof.
  unfold ex_unlocked, ex_db3, ex_db0.
  apply reach_step. do 2 apply run_reachable. constructor.
Qed.

(** The fourth unanswered message of Alice to Bob is blocked. *)
Lemma C1_free_message_gate_witness :
  no_active_unlock 40 ex_db3 1 2
  /\ sio_send_message ex_alice "sid1" ex_hello 40 41 ex_db3
     = (ex_db3, [Emit "blocked_message" [("reason", JStr unlock_reason)] "1"]).
Proof.
  assert (N : no_active_unlock 40 ex_db3 1 2).
  { intros u I. vm_compute in I. destruct I. }
  split; [exact N|].
  assert (B : strip (str_or (sm_body ex_hello) "") <> ""%string).
  { vm_compute. discriminate. }
  pose proof (C1_free_message_gate ex_alice "sid1" ex_hello 40 41 ex_db3 1 2
                eq_refl ltac:(lia) eq_refl eq_refl ltac:(lia) eq_refl B N)
    as T.
  cbv zeta in T. destruct T as (_ & _ & _ & _ & T).
  apply T. vm_compute. lia.
Defined.

(** Bob, the host, lets Alice on stage in a room without speakers. *)
Lemma C2_stage_decision_accept_witness :
  option_map VoiceParticipant.role
    (first (filter (participant_of (Some 1) (Some 1))
              (voice_participants
                 (fst (sio_voice_stage_decision ex_bob
                         (mkStageDecision (Some 1) (Some 1) true) ex_rooms)))))
  = Some "speaker".
Proof.
  pose proof (C2_stage_decision_accept ex_bob
                (mkStageDecision (Some 1) (Some 1) true) ex_rooms ex_bob_row
                eq_refl eq_refl) as T.
  cbv zeta in T. destruct T as (_ & T).
  assert (L : (speakers ex_rooms (Some 1%Z) < 10)%nat) by (vm_compute; lia).
  destruct (T L (VoiceParticipant.mk 2 1 1 "listener" 7) eq_refl)
    as (_ & F & _).
  simpl sd_room_id in F. simpl sd_user_id in F. rewrite F. reflexivity.
Defined.

(** Alice owns 1000 coins and tries to send 5000. *)
Lemma C3_insufficient_funds_witness :
  User.coins ex_alice_row < 5000
  /\ sio_send_coins ex_alice (mkSendCoins (Some 2) (Some 5000)) 100 101 ex_db0
     = (ex_db0, [Emit "blocked_message" [("reason", JStr "Not enough coins.")]
                   "1"]).
Proof.
  assert (L : User.coins ex_alice_row < 5000) by (simpl; lia).
  split; [exact L|].
  exact (C3_insufficient_funds ex_alice (mkSendCoins (Some 2) (Some 5000))
           100 101 ex_db0 ex_alice_row 5000 eq_refl eq_refl ltac:(lia) L).
Defined.

Lemma ex_db3_unlock_unique : unlock_unique ex_db3.
Proof. unfold unlock_unique. vm_compute. constructor. Defined.

(** Alice sends Bob 50 coins, twice. *)
Lemma C4_transfer_upserts_unlock_witness :
  balance ex_unlocked 1 = Some 950
  /\ balance ex_unlocked 2 = Some 1050
  /\ List.length (dm_unlocks ex_unlocked) = 1%nat
  /\ List.length
       (dm_unlocks (fst (sio_send_coins ex_alice ex_gift 500 501 ex_unlocked)))
     = 1%nat.
Proof.
  pose proof (C4_transfer_upserts_unlock ex_alice ex_gift 100 101 ex_db3
                ex_alice_row ex_bob_row 50 eq_refl eq_refl ltac:(lia)
                ltac:(simpl; lia) eq_refl ex_db3_unlock_unique) as T.
  cbv zeta in T.
  destruct T as (B & _ & _ & _ & _ & L & _ & _ & T2).
  destruct (B ltac:(simpl; lia)) as [B1 B2].
  specialize (L eq_refl).
  destruct (T2 ex_alice ex_gift 500 501
              (User.set_coins 950 ex_alice_row)
              (User.set_coins 1050 ex_bob_row) 50
              eq_refl eq_refl ltac:(lia) ltac:(simpl; lia)
              eq_refl eq_refl eq_refl) as [L2 _].
  split; [exact B1|]. split; [exact B2|]. split; [exact L|].
  unfold ex_unlocked, step. rewrite L2. exact L.
Defined.

Lemma ex_unlocked_unlock_unique : unlock_unique ex_unlocked.
Proof.
  unfold unlock_unique. vm_compute.
  constructor; [intros [] | constructor].
Defined.

(** After the gift the unlock of (Alice, Bob) is live until day 30. *)
Lemma C5_unlock_short_circuit_witness :
  unlock_active 200 ex_unlocked 1 2 = true
  /\ dm_allowed 200 ex_unlocked 1 2 = Some true.
Proof.
  pose proof (C5_unlock_short_circuit 200 ex_unlocked 1 2
                ex_unlocked_unlock_unique eq_refl eq_refl) as (A & B & _).
  assert (U : unlock_active 200 ex_unlocked 1 2 = true).
  { apply A. exists (DMUnlock.mk 1 1 2 (Some (100 + timedelta_days 30))).
    split; [left; reflexivity|]. split; [reflexivity|].
    split; [reflexivity|]. right. eexists. split; [reflexivity|].
    vm_compute. reflexivity. }
  split; [exact U | exact (B U)].
Defined.

(** Bob, host of room 1, leaves it and comes back as a listener. *)
Lemma C6_leave_then_rejoin_witness :
  map VoiceParticipant.role
    (filter (participant_of (Some 1) (Some 2))
       (voice_participants
          (fst (sio_voice_join ex_bob (Some 1) 9
                  (fst (sio_voice_leave ex_bob (Some 1) ex_rooms))))))
  = ["listener"].
Proof.
  pose proof (C6_leave_then_rejoin ex_bob 1 9 ex_rooms ex_bob_row eq_refl
                eq_refl) as T.
  cbv zeta in T. destruct T as (_ & _ & (vp & F & R & _) & _).
  simpl User.id in F. rewrite F. simpl. rewrite R. reflexivity.
Defined.

(** Alice asks for her conversation with Bob. *)
Lemma C7_history_fetch_witness :
  api_messages ex_alice None (Some 2) ex_db3
  = JsonList 200 (map (message_payload ex_db3) (history (between 1 2) ex_db3))
  /\ StronglySorted (key_le Message.created_at) (history (between 1 2) ex_db3).
Proof.
  pose proof (C7_history_fetch ex_alice None (Some 2) ex_db3 ex_alice_row
                eq_refl) as (_ & _ & T & S).
  split.
  - exact (T 2 eq_refl eq_refl ltac:(lia) eq_refl).
  - exact (proj1 (S (between 1 2))).
Defined.

(** Alice sends an amount of 0. *)
Lemma C8_nonpositive_amount_dropped_witness :
  sio_send_coins ex_alice (mkSendCoins (Some 2) (Some 0)) 100 101 ex_db0
  = (ex_db0, []).
Proof.
  exact (C8_nonpositive_amount_dropped ex_alice (mkSendCoins (Some 2) (Some 0))
           100 101 ex_db0 ex_alice_row eq_refl ltac:(simpl; lia)).
Defined.

(** Bob creates the first room of a store without participants. *)
Lemma C9_create_room_host_witness :
  filter (in_voice_room 1)
    (voice_participants (fst (api_create_room ex_bob (Some "talk") 5 6 ex_db0)))
  = [VoiceParticipant.mk 1 1 2 "host" 6].
Proof.
  pose proof (C9_create_room_host ex_bob (Some "talk") 5 6 ex_db0 ex_bob_row
                eq_refl) as T.
  cbv zeta in T. destruct T as (_ & _ & _ & _ & T).
  apply T. intros p I. vm_compute in I. destruct I.
Defined.

(** Bob grants the stage of room 1 to user 99, who never joined. *)
Lemma C10_grant_without_participant_witness :
  sio_voice_stage_decision ex_bob (mkStageDecision (Some 1) (Some 99) true)
    ex_rooms
  = (ex_rooms, [Emit "voice_stage_granted" [("user_id", JInt 99)] "voice_1"]).
Proof.
  apply (C10_grant_without_participant ex_bob
           (mkStageDecision (Some 1) (Some 99) true) ex_rooms ex_bob_row
           eq_refl eq_refl eq_refl eq_refl).
  - vm_compute. lia.
  - reflexivity.
Defined.

(** ** Where the code departs from the specification *)

(** C7, against "exactly one of room or recipient_id must be supplied": a
    request that supplies both is not refused; it is served from the
    room and the recipient is ignored. *)
Lemma C7_both_supplied_is_served :
  truthy_str (Some "lobby") = true
  /\ truthy_int (Some 2) = true
  /\ api_messages ex_alice (Some "lobby") (Some 2) ex_db3
     = JsonList 200 (map (message_payload ex_db3)
                       (history (in_room "lobby") ex_db3))
  /\ api_messages ex_alice (Some "lobby") (Some 2) ex_db3
     = api_messages ex_alice (Some "lobby") None ex_db3.
Proof. repeat split. Qed.

(** C8, against "exactly one explanatory event back to the sender": a
    transfer of 0 coins (and of -5 coins) by a logged-in user produces no
    event at all. *)
Lemma C8_no_event_for_nonpositive_amount :
  current_user ex_db0 ex_alice = Some ex_alice_row
  /\ ~ (exists e,
          snd (sio_send_coins ex_alice (mkSendCoins (Some 2) (Some 0))
                 100 101 ex_db0) = [e])
  /\ ~ (exists e,
          snd (sio_send_coins ex_alice (mkSendCoins (Some 2) (Some (-5)))
                 100 101 ex_db0) = [e]).
Proof.
  split; [reflexivity|].
  split; intros [e E]; vm_compute in E; discriminate.
Qed.

(** C9, against "every freshly created room has exactly one participant":
    Alice joins room 1 before any room exists, Bob then creates the first
    room, which gets id 1 and starts with two participants. *)
Lemma C9_fresh_room_with_two_participants :
  reachable ex_early_join
  /\ voice_rooms ex_early_join = []
  /\ snd (api_create_room ex_bob (Some "talk") 5 6 ex_early_join)
     = JsonObject 200 [("id", JInt 1); ("name", JStr "talk")]
  /\ map (fun p => (VoiceParticipant.user_id p, VoiceParticipant.role p))
       (filter (in_voice_room 1)
          (voice_participants
             (fst (api_create_room ex_bob (Some "talk") 5 6 ex_early_join))))
     = [(1, "listener"); (2, "host")].
Proof.
  split.
  { unfold ex_early_join, ex_db0. apply reach_step. apply run_reachable.
    constructor. }
  repeat split.
Qed.

(** ** Scenarios of the specification *)

(** Three unanswered messages, the fourth is blocked; after a gift of 50
    coins the next one goes through. *)
Example scenario_gift_unlocks :
  dm_allowed 40 ex_db3 1 2 = Some false
  /\ dm_allowed 200 ex_unlocked 1 2 = Some true
  /\ List.length
       (messages (fst (sio_send_message ex_alice "sid1" ex_hello 200 201
                         ex_unlocked))) = 4%nat.
Proof. repeat split. Qed.

(** A reply of Bob opens the window again without any coins. *)
Example scenario_reply_resets :
  dm_allowed 60 (step (SendMessage ex_bob "sid2"
                         (mkSendMessage (Some "hello") (Some 1) None) 50 51)
                   ex_db3) 1 2 = Some true.
Proof. reflexivity. Qed.

(** An unlock whose expiry has passed no longer opens the gate. *)
Example scenario_expired_unlock :
  dm_allowed (100 + timedelta_days 30) ex_unlocked 1 2 = Some false
  /\ dm_allowed (100 + timedelta_days 30 - 1) ex_unlocked 1 2 = Some true.
Proof. split; reflexivity. Qed.

(** Ten speakers in room 1: accepting listener 11 answers
    [voice_stage_full] to user 11 and changes nothing. *)
Example scenario_stage_full :
  sio_voice_stage_decision ex_bob (mkStageDecision (Some 1) (Some 11) true)
    ex_full_room
  = (ex_full_room, [Emit "voice_stage_full" [] "11"]).
Proof. reflexivity. Qed.

(** A transfer to oneself changes no balance and still records a
    transaction and an unlock. *)
Example scenario_self_transfer :
  let d := fst (sio_send_coins ex_alice (mkSendCoins (Some 1) (Some 50))
                  100 101 ex_db0) in
  balance d 1 = Some 1000
  /\ List.length (coin_transactions d) = 1%nat
  /\ List.length (dm_unlocks d) = 1%nat.
Proof. repeat split. Qed.

(** Messages of one creation time are listed in the order of the
    table. *)
Example scenario_ties_in_table_order :
  map Message.id (history (in_room "lobby") ex_ties) = [2; 4; 5; 1; 3].
Proof. reflexivity. Qed.

(** An id beyond 64 bits in the payload: every handler that binds it
    ends in its [except] clause (or, without one, raises), and the store
    is as before. *)
Example scenario_unbindable_ids :
  fits ex_huge = false
  /\ dm_allowed 40 ex_db0 1 ex_huge = None
  /\ sio_send_message ex_alice "sid1"
       (mkSendMessage (Some "hello") (Some ex_huge) None) 40 41 ex_db0
     = (ex_db0, [Emit "blocked_message"
                   [("reason", JStr "Error sending message.")] "sid1"])
  /\ sio_send_coins ex_alice (mkSendCoins (Some ex_huge) (Some 50)) 100 101
       ex_db0
     = (ex_db0, [Emit "blocked_message"
                   [("reason", JStr "Error sending coins.")] "1"])
  /\ sio_voice_join ex_alice (Some ex_huge) 7 ex_db0
     = (ex_db0, [JoinRoom "voice_9223372036854775808";
                 Emit "blocked_message"
                   [("reason", JStr "Error joining voice room.")] "1"])
  /\ sio_voice_leave ex_alice (Some ex_huge) ex_db0
     = (ex_db0, [LeaveRoom "voice_9223372036854775808"])
  /\ sio_voice_stage_decision ex_bob
       (mkStageDecision (Some 1) (Some ex_huge) true) ex_rooms
     = (ex_rooms, [])
  /\ sio_voice_comment ex_alice (Some ex_huge) (Some "hi") 8 ex_db0
     = (ex_db0, [])
  /\ api_messages ex_alice None (Some ex_huge) ex_db0 = ServerError.
Proof. repeat split. Qed.

(** * Further properties *)

(** ** Sending a message: the paths around the gate *)

(** X1.  A [send_message] whose sender cannot be resolved, or resolves to
    the id 0, is answered by the one event [blocked_message]
    "Not authenticated." on the caller's own connection; nothing is
    stored. *)
Theorem send_message_not_authenticated sess sid data now stamp d :
  resolve_sender d sess = None \/ resolve_sender d sess = Some 0 ->
  sio_send_message sess sid data now stamp d
  = (d, [Emit "blocked_message" [("reason", JStr "Not authenticated.")] sid]).
Proof.
  unfold sio_send_message. intros [-> | ->]; reflexivity.
Qed.

(** X2.  A message whose body is missing or blank once stripped is
    dropped without any event, before the gate is consulted: also a
    sender who is over the limit gets no [blocked_message] for it. *)
Theorem send_message_blank_body sess sid data now stamp d s :
  resolve_sender d sess = Some s -> s <> 0 ->
  strip (str_or (sm_body data) "") = ""%string ->
  sio_send_message sess sid data now stamp d = (d, []).
Proof.
  intros R S B. unfold sio_send_message. rewrite R, B.
  apply Z.eqb_neq in S. rewrite S. reflexivity.
Qed.

(** X3.  A message without a recipient (the key missing, null or 0) is
    never gated: whatever the unlocks and the message counts, it is
    stored and sent once, to its room if it names one and to the lobby
    otherwise. *)
Theorem send_message_broadcast_never_gated sess sid data now stamp d s :
  resolve_sender d sess = Some s -> s <> 0 ->
  strip (str_or (sm_body data) "") <> ""%string ->
  truthy_int (sm_recipient_id data) = false ->
  let d' := set_messages (messages d ++ [new_message d data s stamp]) d in
  sio_send_message sess sid data now stamp d
  = (d', [Emit "new_message" (message_payload d' (new_message d data s stamp))
            (if truthy_str (sm_room data)
             then match sm_room data with Some r => r | None => "" end
             else "lobby")]).
Proof.
  intros R S B T d'. unfold sio_send_message. rewrite R, T.
  apply Z.eqb_neq in S. apply String.eqb_neq in B. rewrite S, B. simpl.
  fold (new_message d data s stamp). fold d'.
  destruct (truthy_str (sm_room data)); reflexivity.
Qed.

(** A direct message that passes the gate is stored with the
    recipient and sent twice, to the recipient's room and to the
    sender's; when it also names a room it goes to that room only. *)
Theorem send_message_direct_delivery sess sid data now stamp d s r :
  resolve_sender d sess = Some s -> s <> 0 ->
  strip (str_or (sm_body data) "") <> ""%string ->
  sm_recipient_id data = Some r -> r <> 0 ->
  dm_allowed now d s r = Some true ->
  let msg := new_message d data s stamp in
  let d' := set_messages (messages d ++ [msg]) d in
  fst (sio_send_message sess sid data now stamp d) = d'
  /\ (truthy_str (sm_room data) = false ->
      snd (sio_send_message sess sid data now stamp d)
      = [Emit "new_message" (message_payload d' msg) (str_int r);
         Emit "new_message" (message_payload d' msg) (str_int s)])
  /\ (forall room, sm_room data = Some room -> room <> ""%string ->
      snd (sio_send_message sess sid data now stamp d)
      = [Emit "new_message" (message_payload d' msg) room]).
Proof.
  intros R S B RR R0 A msg d'. unfold sio_send_message.
  rewrite R. apply Z.eqb_neq in S. apply String.eqb_neq in B.
  rewrite S, B. subst msg d'. unfold new_message. rewrite RR.
  simpl truthy_int.
  apply Z.eqb_neq in R0. rewrite R0, A. simpl.
  split; [reflexivity|]. split.
  - intros ->. reflexivity.
  - intros room -> N. simpl. apply String.eqb_neq in N. rewrite N.
    reflexivity.
Qed.

(** ** [authenticated_only] *)

(** X4.  A caller without a logged-in user is disconnected by every
    handler under [authenticated_only]: the store is unchanged and the
    disconnect is the only effect. *)
Theorem authenticated_only_disconnects sess d :
  current_user d sess = None ->
  (forall data now stamp,
     sio_send_coins sess data now stamp d = (d, [Disconnect]))
  /\ (forall room_id stamp, sio_voice_join sess room_id stamp d = (d, [Disconnect]))
  /\ (forall room_id, sio_voice_leave sess room_id d = (d, [Disconnect]))
  /\ (forall room_id, sio_voice_request_stage sess room_id d = (d, [Disconnect]))
  /\ (forall data, sio_voice_stage_decision sess data d = (d, [Disconnect]))
  /\ (forall room_id body stamp,
        sio_voice_comment sess room_id body stamp d = (d, [Disconnect])).
Proof.
  intros C.
  unfold sio_send_coins, sio_voice_join, sio_voice_leave,
    sio_voice_request_stage, sio_voice_stage_decision, sio_voice_comment.
  rewrite C. repeat split.
Qed.

(** ** CoinLedger: the other rejection *)

(** X5.  A transfer of a positive, affordable amount to an id that no
    user has.  When the id is missing or a 64-bit integer the answer is
    the one event [blocked_message] "User not found." to the payer; when
    it cannot be bound the lookup raises and the [except] clause answers
    "Error sending coins." instead.  The store is unchanged either way. *)
Theorem send_coins_unknown_recipient sess data now stamp d cu a :
  current_user d sess = Some cu ->
  sc_amount data = Some a -> 0 < a -> a <= User.coins cu ->
  get_user d (sc_to data) = None ->
  (fits_opt (sc_to data) = true ->
   sio_send_coins sess data now stamp d
   = (d, [Emit "blocked_message" [("reason", JStr "User not found.")]
            (str_int (User.id cu))]))
  /\ (binds_opt d (sc_to data) = false ->
      sio_send_coins sess data now stamp d
      = (d, [Emit "blocked_message" [("reason", JStr "Error sending coins.")]
               (str_int (User.id cu))])).
Proof.
  intros C A P L G. unfold sio_send_coins. rewrite C, A, G.
  replace (a <=? 0) with false by (symmetry; apply Z.leb_gt; lia).
  replace (User.coins cu <? a) with false by (symmetry; apply Z.ltb_ge; lia).
  split; intros B.
  - rewrite (fits_opt_binds d _ B). reflexivity.
  - rewrite B. reflexivity.
Qed.

(** ** [strip] *)

Lemma rstrip_cons c s :
  rstrip (String c s) =
  match rstrip s with
  | EmptyString => if is_space c then EmptyString else String c EmptyString
  | r => String c r
  end.
Proof. reflexivity. Qed.

Lemma rstrip_idem s : rstrip (rstrip s) = rstrip s.
Proof.
  induction s as [|c s IH]; [reflexivity|].
  rewrite rstrip_cons. destruct (rstrip s) as [|x r] eqn:E.
  - destruct (is_space c) eqn:Sp; [reflexivity|].
    rewrite rstrip_cons. simpl. rewrite Sp. reflexivity.
  - rewrite rstrip_cons, IH. reflexivity.
Qed.

Lemma lstrip_head s :
  match lstrip s with
  | String c _ => is_space c = false
  | EmptyString => True
  end.
Proof.
  induction s as [|c s IH]; simpl; [exact I|].
  destruct (is_space c) eqn:Sp; [exact IH | exact Sp].
Qed.

Lemma rstrip_head c s :
  is_space c = false -> exists r, rstrip (String c s) = String c r.
Proof.
  intros Sp. rewrite rstrip_cons. destruct (rstrip s); [rewrite Sp|]; eauto.
Qed.

(** Stripping twice is stripping once. *)
Lemma strip_idem s : strip (strip s) = strip s.
Proof.
  unfold strip. pose proof (lstrip_head s) as H.
  destruct (lstrip s) as [|c t]; [reflexivity|].
  destruct (rstrip_head c t H) as [r E]. rewrite E.
  cbn [lstrip]. rewrite H, <- E. apply rstrip_idem.
Qed.

(** ** Every request is one guarded write *)

Lemma step_change r d : change d (step r d).
Proof.
  destruct r; simpl.
  - unfold register.
    destruct (_ || _); [constructor|].
    destruct (String.length _ <? 3)%nat eqn:L; [constructor|].
    destruct (String.length _ <? 6)%nat; [constructor|].
    destruct (first _) eqn:F; [constructor|]. simpl.
    apply ch_register; [exact F|]. apply Nat.ltb_ge in L. exact L.
  - unfold set_user_status. destruct (current_user d sess); constructor.
  - unfold api_create_room. destruct (current_user d sess); [|constructor].
    simpl. apply ch_room.
    destruct (_ =? "")%string eqn:E; [discriminate|].
    now apply String.eqb_neq in E.
  - unfold sio_send_message.
    destruct (resolve_sender d sess) as [s|]; [|constructor].
    destruct (s =? 0) eqn:S; [constructor|].
    destruct (_ =? "")%string eqn:B; [constructor|].
    assert (M : change d
                  (set_messages
                     (messages d
                      ++ [Message.mk (next_id Message.id (messages d))
                            (strip (str_or (sm_body data) "")) stamp s
                            (sm_recipient_id data) (sm_room data)])%list d)).
    { apply ch_message;
        [now apply String.eqb_neq in B | apply strip_idem
        | now apply Z.eqb_neq in S]. }
    cbv zeta. destruct (truthy_int (sm_recipient_id data)); [|exact M].
    destruct (dm_allowed _ _ _ _) as [[|]|]; [exact M | constructor..].
  - unfold sio_send_coins.
    destruct (current_user d sess) as [cu|] eqn:C; [|constructor].
    destruct (sc_amount data) as [a|]; [|constructor].
    destruct (a <=? 0) eqn:P; [constructor|].
    destruct (User.coins cu <? a) eqn:L; [constructor|].
    destruct (binds_opt d (sc_to data)); [|constructor]. simpl negb.
    cbv iota.
    destruct (get_user d (sc_to data)) as [rcp|] eqn:G; [|constructor].
    simpl. apply ch_transfer.
    + exact (get_user_row _ _ _ C).
    + exact (get_user_row _ _ _ G).
    + apply Z.leb_gt in P. exact P.
    + apply Z.ltb_ge in L. exact L.
  - unfold sio_voice_join.
    destruct (current_user d sess) as [cu|]; [|constructor].
    destruct (binds_opt d room_id); [|constructor]. simpl negb. cbv iota.
    destruct (first _) eqn:F; [constructor|].
    destruct room_id as [r|]; [|constructor]. simpl.
    apply ch_join. now apply first_filter_None.
  - unfold sio_voice_leave.
    destruct (current_user d sess) as [cu|]; [|constructor].
    destruct (binds_opt d room_id); constructor.
  - unfold sio_voice_stage_decision.
    destruct (current_user d sess) as [cu|]; [|constructor].
    destruct (sd_accept data); [|constructor].
    destruct (binds_opt d (sd_room_id data)); [|constructor]. simpl negb.
    cbv iota zeta.
    destruct (_ <=? _)%nat eqn:L; [constructor|].
    destruct (binds_opt d (sd_user_id data)); [|constructor]. simpl.
    destruct (first _); [|constructor].
    apply ch_promote. apply Nat.leb_gt in L. exact L.
  - unfold sio_voice_comment.
    destruct (current_user d sess) as [cu|]; [|constructor].
    destruct (_ =? "")%string eqn:B; [constructor|].
    destruct room_id as [r|]; [|constructor].
    destruct (binds d r); [|constructor]. simpl.
    apply ch_comment; [now apply String.eqb_neq in B | apply strip_idem].
Qed.

(** A property of the empty store that every guarded write keeps holds
    in every store the application reaches. *)
Lemma reachable_invariant (P : DB -> Prop) :
  P empty_db -> (forall d d', P d -> change d d' -> P d') ->
  forall d, reachable d -> P d.
Proof.
  intros P0 PS d R. induction R as [|r d R IH]; [exact P0|].
  eapply PS; [exact IH | apply step_change].
Qed.

Lemma In_update_first {A} (p : A -> bool) (f : A -> A) (l : list A) y :
  In y (update_first p f l) ->
  In y l \/ exists x, In x l /\ p x = true /\ y = f x.
Proof.
  induction l as [|a l IH]; simpl; [tauto|].
  destruct (p a) eqn:E; simpl.
  - intros [<-|I]; [right; exists a; auto | left; auto].
  - intros [<-|I]; [left; auto|].
    destruct (IH I) as [J|(x & J & Px & ->)]; [left; auto|].
    right. exists x. auto.
Qed.

Lemma In_update_first_cases {A} (p : A -> bool) (f : A -> A) (l : list A) y :
  In y (update_first p f l) -> In y l \/ exists x, In x l /\ y = f x.
Proof.
  induction l as [|a l IH]; simpl; [tauto|].
  destruct (p a); simpl.
  - intros [<-|I]; [right; exists a; auto | left; auto].
  - intros [<-|I]; [left; auto|].
    destruct (IH I) as [J|(x & J & ->)]; [left; auto|].
    right. exists x. auto.
Qed.

(** ** Primary keys *)

Lemma NoDup_append_fresh {A} (id : A -> Z) (l : list A) (x : A) :
  id x = next_id id l -> NoDup (map id l) -> NoDup (map id (l ++ [x])).
Proof.
  intros E N. rewrite map_app. simpl.
  eapply Permutation_NoDup; [apply Permutation_cons_append|].
  constructor; [|exact N].
  intros I. apply in_map_iff in I. destruct I as (y & Ey & Iy).
  pose proof (next_id_fresh id l y Iy). lia.
Qed.

Lemma NoDup_map_filter {A B} (keep : A -> bool) (key : A -> B) rows :
  NoDup (map key rows) -> NoDup (map key (filter keep rows)).
Proof.
  intros N. induction rows as [|x rows IH]; simpl; [constructor|].
  simpl in N. apply NoDup_cons_iff in N. destruct N as [NI N].
  destruct (keep x); simpl; [|now apply IH].
  apply NoDup_cons; [|now apply IH]. intros I. apply NI.
  apply in_map_iff in I. destruct I as (y & E & Iy).
  apply filter_In in Iy. apply in_map_iff. exists y. tauto.
Qed.

Lemma change_ids_unique d d' : ids_unique d -> change d d' -> ids_unique d'.
Proof.
  intros (U & M & T & K & R & P & C) Ch. unfold ids_unique.
  destruct Ch; unfold transfer; simpl; repeat split;
    first
      [ assumption
      | now apply NoDup_append_fresh
      | now apply NoDup_map_filter
      | rewrite !map_update_first by reflexivity; assumption
      | match goal with
        | |- context [match first ?x with _ => _ end] => destruct (first x)
        end;
        [ rewrite map_update_first by reflexivity; assumption
        | now apply NoDup_append_fresh ] ].
Qed.

(** X7.  In every store the application reaches, no id occurs twice in a
    table: new rows get fresh ids, updates keep ids and deleting rows
    cannot create a clash. *)
Theorem reachable_ids_unique d : reachable d -> ids_unique d.
Proof.
  apply reachable_invariant.
  - unfold ids_unique. simpl. repeat split; constructor.
  - apply change_ids_unique.
Qed.

(** ** Registered users *)

Lemma named_spec n u : named n u = true <-> User.username u = n.
Proof. unfold named. apply String.eqb_eq. Qed.

(** X8.  In every store the application reaches, usernames are pairwise
    different and at least 3 characters long. *)
Theorem reachable_usernames d :
  reachable d ->
  NoDup (map User.username (users d))
  /\ Forall (fun u => (3 <= String.length (User.username u))%nat) (users d).
Proof.
  apply (reachable_invariant
           (fun d => NoDup (map User.username (users d))
                     /\ Forall (fun u => (3 <= String.length (User.username u))%nat)
                          (users d))).
  - simpl. split; constructor.
  - intros d0 d' [N F] Ch. destruct Ch; simpl; auto.
    + split.
      * rewrite map_app. simpl.
        eapply Permutation_NoDup; [apply Permutation_cons_append|].
        constructor; [|exact N]. intros I.
        apply in_map_iff in I. destruct I as (y & Ey & Iy).
        apply first_filter_None in H. rewrite filter_nil_iff in H.
        specialize (H y Iy). apply named_spec in Ey. congruence.
      * apply Forall_app. split; [exact F|]. constructor; [exact H0|constructor].
    + split.
      * rewrite map_update_first; [exact N | reflexivity].
      * apply Forall_forall. intros x I. rewrite Forall_forall in F.
        apply In_update_first_cases in I.
        destruct I as [I|(y & Iy & ->)]; [now apply F|]. simpl. now apply F.
    + split.
      * rewrite !map_update_first; [exact N | reflexivity | reflexivity].
      * apply Forall_forall. intros x I. rewrite Forall_forall in F.
        apply In_update_first_cases in I.
        destruct I as [I|(y & Iy & ->)].
        -- apply In_update_first_cases in I.
           destruct I as [I|(z & Iz & ->)]; [now apply F|]. simpl. now apply F.
        -- apply In_update_first_cases in Iy.
           destruct Iy as [Iy|(z & Iz & ->)]; simpl; now apply F.
Qed.

(** ** Coins *)

Section Sums.
Implicit Types (l : list User.t) (p : User.t -> bool) (f : User.t -> User.t).

Lemma sum_coins_app l1 l2 : sum_coins (l1 ++ l2) = sum_coins l1 + sum_coins l2.
Proof. induction l1 as [|x l1 IH]; simpl; [reflexivity | rewrite IH; lia]. Qed.

Lemma sum_update_first_same l p f :
  (forall x, User.coins (f x) = User.coins x) ->
  sum_coins (update_first p f l) = sum_coins l.
Proof.
  intros H. induction l as [|x l IH]; simpl; [reflexivity|].
  destruct (p x); simpl; [rewrite H | rewrite IH]; reflexivity.
Qed.

Lemma sum_update_first_shift l p f k :
  (forall x, User.coins (f x) = User.coins x + k) ->
  filter p l <> [] ->
  sum_coins (update_first p f l) = sum_coins l + k.
Proof.
  intros H. induction l as [|x l IH]; simpl; [congruence|].
  destruct (p x); simpl; intros N; [rewrite H | rewrite IH by exact N]; lia.
Qed.

Lemma filter_update_first_nonempty l p q f :
  (forall x, q (f x) = q x) ->
  filter q l <> [] -> filter q (update_first p f l) <> [].
Proof.
  intros H. induction l as [|x l IH]; simpl; [congruence|].
  destruct (p x); simpl.
  - rewrite H. destruct (q x); [discriminate | auto].
  - destruct (q x); [discriminate | auto].
Qed.

Lemma Forall_update_first_at (P : User.t -> Prop) l p f c :
  first (filter p l) = Some c -> Forall P l -> P (f c) ->
  Forall P (update_first p f l).
Proof.
  intros F A Pc. induction l as [|x l IH]; simpl; [constructor|].
  inversion A as [|? ? Px A']; subst. simpl in F.
  destruct (p x).
  - simpl in F. inversion F; subst. now constructor.
  - constructor; [exact Px | now apply IH].
Qed.

Lemma Forall_update_first_all (P : User.t -> Prop) l p f :
  Forall P l -> (forall x, P x -> P (f x)) -> Forall P (update_first p f l).
Proof.
  intros A H. induction A as [|x l Px A IH]; simpl; [constructor|].
  destruct (p x); constructor; auto.
Qed.

End Sums.

Lemma first_nonempty {A} (l : list A) x : first l = Some x -> l <> [].
Proof. destruct l; simpl; congruence. Qed.

Lemma transfer_total cu rcp a now stamp d :
  first (filter (has_id (User.id cu)) (users d)) = Some cu ->
  first (filter (has_id (User.id rcp)) (users d)) = Some rcp ->
  total_coins (transfer cu rcp a now stamp d) = total_coins d.
Proof.
  intros Hc Hr. unfold total_coins, transfer. simpl.
  change (sum_coins
            (update_first (has_id (User.id rcp))
               (fun u => User.set_coins (User.coins u + a) u)
               (update_first (has_id (User.id cu))
                  (fun u => User.set_coins (User.coins u - a) u) (users d)))
          = sum_coins (users d)).
  rewrite (sum_update_first_shift _ _ _ a).
  - rewrite (sum_update_first_shift _ _ _ (- a)).
    + lia.
    + intros x. simpl. lia.
    + exact (first_nonempty _ _ Hc).
  - reflexivity.
  - apply filter_update_first_nonempty; [reflexivity|].
    exact (first_nonempty _ _ Hr).
Qed.

(** [send_coins] adds and removes no user row. *)
Lemma send_coins_user_ids sess data now stamp d :
  map User.id (users (fst (sio_send_coins sess data now stamp d)))
  = map User.id (users d).
Proof.
  unfold sio_send_coins.
  destruct (current_user d sess) as [cu|]; [|reflexivity].
  destruct (sc_amount data) as [a|]; [|reflexivity].
  destruct (a <=? 0); [reflexivity|].
  destruct (User.coins cu <? a); [reflexivity|].
  destruct (binds_opt d (sc_to data)); [|reflexivity].
  destruct (get_user d (sc_to data)) as [rcp|]; [|reflexivity].
  simpl. rewrite !map_update_first; reflexivity.
Qed.

(** X6.  [send_coins] never creates or destroys coins: whatever the
    request and the store, the sum of all balances after it is the sum
    before it, and no user row is added or removed. *)
Theorem send_coins_conserves_coins sess data now stamp d :
  total_coins (fst (sio_send_coins sess data now stamp d)) = total_coins d
  /\ map User.id (users (fst (sio_send_coins sess data now stamp d)))
     = map User.id (users d).
Proof.
  unfold sio_send_coins.
  destruct (current_user d sess) as [cu|] eqn:C; [|split; reflexivity].
  destruct (_ <=? 0); [split; reflexivity|].
  destruct (User.coins cu <? _); [split; reflexivity|].
  destruct (binds_opt d (sc_to data)); [|split; reflexivity].
  simpl negb. cbv iota.
  destruct (get_user d (sc_to data)) as [rcp|] eqn:G; [|split; reflexivity].
  split.
  - apply (transfer_total cu rcp _ now stamp d).
    + exact (get_user_row _ _ _ C).
    + exact (get_user_row _ _ _ G).
  - simpl. rewrite !map_update_first; reflexivity.
Qed.

(** X9.  In every store the application reaches, the coins in
    circulation are exactly the 1000 each registered user started
    with. *)
Theorem reachable_total_coins d :
  reachable d ->
  total_coins d = 1000 * Z.of_nat (List.length (users d)).
Proof.
  apply (reachable_invariant
           (fun d => total_coins d = 1000 * Z.of_nat (List.length (users d)))).
  - reflexivity.
  - intros d0 d' I Ch. change (total_coins d0) with (sum_coins (users d0)) in I.
    destruct Ch; try exact I.
    + change (sum_coins (users d0 ++ [User.mk (next_id User.id (users d0))
                                        username hash "offline" false 1000])
              = 1000 * Z.of_nat (List.length
                                   (users d0 ++ [User.mk (next_id User.id (users d0))
                                                   username hash "offline" false 1000]))).
      rewrite sum_coins_app, length_app, Nat2Z.inj_add, I.
      cbn [sum_coins fold_right User.coins List.length]. lia.
    + change (sum_coins (update_first (has_id (User.id cu))
                           (User.set_status status) (users d0))
              = 1000 * Z.of_nat (List.length
                                   (update_first (has_id (User.id cu))
                                      (User.set_status status) (users d0)))).
      rewrite update_first_length, <- I.
      apply sum_update_first_same. reflexivity.
    + rewrite transfer_total by assumption.
      change (total_coins d0) with (sum_coins (users d0)). rewrite I.
      unfold transfer. simpl. rewrite !update_first_length. reflexivity.
Qed.

(** X10.  In every store the application reaches, no balance is
    negative. *)
Theorem reachable_balances_nonnegative d :
  reachable d -> Forall (fun u => 0 <= User.coins u) (users d).
Proof.
  apply (reachable_invariant
           (fun d => Forall (fun u => 0 <= User.coins u) (users d))).
  - constructor.
  - intros d0 d' I Ch. destruct Ch; try exact I.
    + simpl. apply Forall_app. split; [exact I|].
      constructor; [simpl; lia | constructor].
    + simpl. apply Forall_update_first_all; [exact I|]. intros x Px. exact Px.
    + unfold transfer. simpl. apply Forall_update_first_all.
      * eapply Forall_update_first_at; [eassumption | exact I | simpl; lia].
      * intros x Px. simpl. lia.
Qed.

(** ** The ledger *)

(** X11.  In every store the application reaches, each coin transaction
    carries a positive amount and the note "gift", and its two ends are
    registered users. *)
Theorem reachable_transactions d :
  reachable d ->
  forall tx, In tx (coin_transactions d) ->
    0 < CoinTransaction.amount tx
    /\ CoinTransaction.note tx = "gift"
    /\ In (CoinTransaction.from_id tx) (map User.id (users d))
    /\ In (CoinTransaction.to_id tx) (map User.id (users d)).
Proof.
  apply (reachable_invariant
           (fun d => forall tx, In tx (coin_transactions d) ->
              0 < CoinTransaction.amount tx
              /\ CoinTransaction.note tx = "gift"
              /\ In (CoinTransaction.from_id tx) (map User.id (users d))
              /\ In (CoinTransaction.to_id tx) (map User.id (users d)))).
  - intros tx [].
  - intros d0 d' I Ch. destruct Ch; try exact I.
    + simpl. intros tx J. destruct (I tx J) as (A & B & C & D).
      rewrite map_app. repeat split; auto; apply in_or_app; auto.
    + simpl. intros tx J. rewrite map_update_first by reflexivity. auto.
    + unfold transfer. simpl. intros tx J.
      rewrite !map_update_first by reflexivity.
      apply in_app_or in J. destruct J as [J|[<-|[]]]; [auto|]. simpl.
      apply first_filter_In in H. apply first_filter_In in H0.
      repeat split; auto; apply in_map; tauto.
Qed.

(** X12.  In every store the application reaches, each unlock row has an
    expiry and was paid for: a coin transaction from its granter to its
    target is on the ledger. *)
Theorem reachable_unlocks_paid d :
  reachable d ->
  forall u, In u (dm_unlocks d) ->
    DMUnlock.expires_at u <> None
    /\ exists tx, In tx (coin_transactions d)
                  /\ CoinTransaction.from_id tx = DMUnlock.user_id u
                  /\ CoinTransaction.to_id tx = DMUnlock.target_id u.
Proof.
  apply (reachable_invariant
           (fun d => forall u, In u (dm_unlocks d) ->
              DMUnlock.expires_at u <> None
              /\ exists tx, In tx (coin_transactions d)
                            /\ CoinTransaction.from_id tx = DMUnlock.user_id u
                            /\ CoinTransaction.to_id tx = DMUnlock.target_id u)).
  - intros u [].
  - intros d0 d' I Ch. destruct Ch; try exact I.
    unfold transfer. simpl. intros u J.
    assert (K : In u (dm_unlocks d0)
                \/ DMUnlock.expires_at u <> None
                   /\ DMUnlock.user_id u = User.id cu
                   /\ DMUnlock.target_id u = User.id rcp).
    { destruct (first (filter (unlock_for (User.id cu) (User.id rcp))
                         (dm_unlocks d0))) as [u0|] eqn:F.
      - pose proof J as J'. apply In_update_first in J'.
        destruct J' as [J'|(x & Ix & Px & ->)]; [left; exact J'|].
        right. apply unlock_for_spec in Px. simpl.
        split; [discriminate | exact Px].
      - apply in_app_or in J. destruct J as [J|[<-|[]]]; [left; exact J|].
        right. simpl. split; [discriminate | auto]. }
    destruct K as [K|(E & Ku & Kt)].
    + destruct (I u K) as (E & tx & Itx & T). split; [exact E|].
      exists tx. split; [apply in_or_app; left; exact Itx | exact T].
    + split; [exact E|]. eexists. split.
      * apply in_or_app. right. left. reflexivity.
      * simpl. auto.
Qed.

(** ** Stored text *)

(** X13.  In every store the application reaches, each message has a
    sender other than 0 and a body that is not empty and carries no
    leading or trailing white space; the same holds for the body of each
    voice comment. *)
Theorem reachable_bodies d :
  reachable d ->
  (forall m, In m (messages d) ->
     Message.sender_id m <> 0
     /\ Message.body m <> ""%string
     /\ strip (Message.body m) = Message.body m)
  /\ (forall c, In c (voice_comments d) ->
        VoiceComment.body c <> ""%string
        /\ strip (VoiceComment.body c) = VoiceComment.body c).
Proof.
  apply (reachable_invariant
           (fun d =>
              (forall m, In m (messages d) ->
                 Message.sender_id m <> 0
                 /\ Message.body m <> ""%string
                 /\ strip (Message.body m) = Message.body m)
              /\ (forall c, In c (voice_comments d) ->
                    VoiceComment.body c <> ""%string
                    /\ strip (VoiceComment.body c) = VoiceComment.body c))).
  - split; intros x [].
  - intros d0 d' [M C] Ch. destruct Ch; try (split; assumption).
    + split; [|exact C]. simpl. intros m J.
      apply in_app_or in J. destruct J as [J|[<-|[]]]; [auto|].
      simpl. auto.
    + split; [exact M|]. simpl. intros c J.
      apply in_app_or in J. destruct J as [J|[<-|[]]]; [auto|].
      simpl. auto.
Qed.

(** ** Voice rooms *)

(** In every store the application reaches, every voice room is
    active and has a name that is not empty: no request deactivates or
    removes a room. *)
Theorem reachable_rooms d :
  reachable d ->
  forall room, In room (voice_rooms d) ->
    VoiceRoom.active room = true /\ VoiceRoom.name room <> ""%string.
Proof.
  apply (reachable_invariant
           (fun d => forall room, In room (voice_rooms d) ->
              VoiceRoom.active room = true
              /\ VoiceRoom.name room <> ""%string)).
  - intros room [].
  - intros d0 d' I Ch. destruct Ch; try exact I.
    simpl. intros room J.
    apply in_app_or in J. destruct J as [J|[<-|[]]]; [auto|].
    simpl. auto.
Qed.

Lemma option_eq_dec (x y : option Z) : {x = y} + {x <> y}.
Proof. decide equality. apply Z.eq_dec. Qed.

Lemma length_filter_update_first {A} (p q : A -> bool) (f : A -> A) l :
  (List.length (filter q (update_first p f l))
   <= S (List.length (filter q l)))%nat.
Proof.
  induction l as [|x l IH]; simpl; [lia|].
  destruct (p x); simpl.
  - destruct (q (f x)), (q x); simpl; lia.
  - destruct (q x); simpl; lia.
Qed.

Lemma length_filter_delete_where {A} (p q : A -> bool) l :
  (List.length (filter q (delete_where p l)) <= List.length (filter q l))%nat.
Proof.
  unfold delete_where. induction l as [|x l IH]; simpl; [lia|].
  destruct (p x); simpl; destruct (q x); simpl; lia.
Qed.

Lemma speakers_promote d room_id target_id r0 :
  r0 <> room_id ->
  speakers (set_voice_participants
              (update_first (participant_of room_id target_id)
                 (VoiceParticipant.set_role "speaker") (voice_participants d)) d)
           r0
  = speakers d r0.
Proof.
  intros NE. unfold speakers. simpl. f_equal.
  apply filter_update_first_other. intros x P.
  apply participant_of_spec in P. destruct P as [-> _].
  assert (E : col_eqb (VoiceParticipant.room_id x) r0 = false).
  { unfold col_eqb. destruct r0 as [n|]; [|reflexivity].
    apply Z.eqb_neq. congruence. }
  simpl. rewrite E. auto.
Qed.

(** X14.  In every store the application reaches, no voice room has more
    than 10 rows with role speaker. *)
Theorem reachable_stage_cap d :
  reachable d -> forall room_id, (speakers d room_id <= MAX_STAGE)%nat.
Proof.
  apply (reachable_invariant
           (fun d => forall room_id, (speakers d room_id <= MAX_STAGE)%nat)).
  - intros room_id. unfold speakers, MAX_STAGE. simpl. lia.
  - intros d0 d' I Ch. destruct Ch; try exact I; intros r0;
      specialize (I r0); unfold speakers in *; simpl.
    + rewrite filter_app. simpl. rewrite andb_false_r. simpl.
      rewrite app_nil_r. exact I.
    + rewrite filter_app. simpl. rewrite andb_false_r. simpl.
      rewrite app_nil_r. exact I.
    + etransitivity; [apply length_filter_delete_where | exact I].
    + destruct (option_eq_dec r0 room_id) as [->|NE].
      * unfold speakers in H.
        etransitivity; [apply length_filter_update_first|]. exact H.
      * pose proof (speakers_promote d0 room_id target_id r0 NE) as E.
        unfold speakers in E. simpl in E. rewrite E. exact I.
Qed.

(** ** Joining and leaving a voice room *)

(** X15.  [voice_join] is idempotent.  A user who already has a row in
    the room keeps it, role included (a host or speaker stays one), and
    the announcement carries that role; joining twice in a row gives the
    store and the effects of joining once. *)
Theorem voice_join_idempotent sess r stamp stamp' d cu :
  current_user d sess = Some cu ->
  (forall vp,
     first (filter (participant_of (Some r) (Some (User.id cu)))
              (voice_participants d)) = Some vp ->
     sio_voice_join sess (Some r) stamp d
     = (d, [JoinRoom (voice_room_name (Some r));
            Emit "voice_user_joined"
              [("user_id", JInt (User.id cu));
               ("role", JStr (VoiceParticipant.role vp))]
              (voice_room_name (Some r))]))
  /\ sio_voice_join sess (Some r) stamp'
       (fst (sio_voice_join sess (Some r) stamp d))
     = (fst (sio_voice_join sess (Some r) stamp d),
        snd (sio_voice_join sess (Some r) stamp d)).
Proof.
  intros C. split.
  - intros vp F. unfold sio_voice_join. rewrite C.
    destruct (found_participant_binds _ _ _ _ F) as [B _].
    rewrite B, F. reflexivity.
  - destruct (binds_opt d (Some r)) eqn:B;
      [|rewrite (voice_join_unbindable _ _ stamp _ _ C B);
        apply (voice_join_unbindable _ _ stamp' _ _ C B)].
    unfold sio_voice_join at 2 3 4. rewrite C, B. simpl negb. cbv iota.
    destruct (first (filter (participant_of (Some r) (Some (User.id cu)))
                       (voice_participants d))) as [vp|] eqn:F.
    + simpl. unfold sio_voice_join. rewrite C, B, F. reflexivity.
    + simpl. unfold sio_voice_join.
      change (current_user (set_voice_participants _ d) sess)
        with (current_user d sess).
      rewrite C.
      match goal with
      | |- context [binds_opt ?d' (Some r)] =>
          replace (binds_opt d' (Some r)) with true
      end.
      * simpl voice_participants. simpl negb. cbv iota. rewrite filter_app.
        apply first_filter_None in F. rewrite F. simpl.
        unfold participant_of at 1. simpl. rewrite !Z.eqb_refl. reflexivity.
      * symmetry. eapply room_col_binds with (p := VoiceParticipant.mk _ r _ _ _).
        -- simpl. apply in_or_app. right. left. reflexivity.
        -- simpl. apply Z.eqb_refl.
Qed.

(** A [voice_join] without a room id still enters the socket room
    "voice_None", stores nothing, and is answered by [blocked_message]
    "Error joining voice room." to the caller. *)
Theorem voice_join_without_room sess stamp d cu :
  current_user d sess = Some cu ->
  sio_voice_join sess None stamp d
  = (d, [JoinRoom "voice_None";
         Emit "blocked_message"
           [("reason", JStr "Error joining voice room.")]
           (str_int (User.id cu))]).
Proof.
  intros C. unfold sio_voice_join. rewrite C. simpl binds_opt.
  replace (filter (participant_of None (Some (User.id cu)))
             (voice_participants d)) with (@nil VoiceParticipant.t).
  - reflexivity.
  - symmetry. apply filter_nil_iff. reflexivity.
Qed.

Lemma delete_where_id {A} (p : A -> bool) (l : list A) :
  filter p l = [] -> delete_where p l = l.
Proof.
  unfold delete_where. induction l as [|x l IH]; simpl; [reflexivity|].
  destruct (p x); simpl; [discriminate|]. intros E. now rewrite IH.
Qed.

Lemma set_voice_participants_id d :
  set_voice_participants (voice_participants d) d = d.
Proof. destruct d. reflexivity. Qed.

(** X16.  [voice_leave] by a user without a row in the room, for a room
    id that is missing or a 64-bit integer, changes nothing in the store
    and still announces [voice_user_left] to the room.  For a room id
    that cannot be bound the DELETE raises: the socket room is left, the
    store is unchanged and nothing is announced.  Leaving twice in a row
    leaves the store of leaving once. *)
Theorem voice_leave_idempotent sess room_id d cu :
  current_user d sess = Some cu ->
  (fits_opt room_id = true ->
   filter (participant_of room_id (Some (User.id cu)))
     (voice_participants d) = [] ->
   sio_voice_leave sess room_id d
   = (d, [LeaveRoom (voice_room_name room_id);
          Emit "voice_user_left" [("user_id", JInt (User.id cu))]
            (voice_room_name room_id)]))
  /\ (binds_opt d room_id = false ->
      sio_voice_leave sess room_id d
      = (d, [LeaveRoom (voice_room_name room_id)]))
  /\ fst (sio_voice_leave sess room_id (fst (sio_voice_leave sess room_id d)))
     = fst (sio_voice_leave sess room_id d).
Proof.
  intros C. split; [|split].
  - intros B N. unfold sio_voice_leave.
    rewrite C, (fits_opt_binds d _ B). simpl negb. cbv iota.
    rewrite (delete_where_id _ _ N), set_voice_participants_id. reflexivity.
  - intros B. unfold sio_voice_leave. rewrite C, B. reflexivity.
  - unfold sio_voice_leave at 2 3. rewrite C.
    destruct (binds_opt d room_id) eqn:B; simpl.
    + unfold sio_voice_leave.
      change (current_user (set_voice_participants _ d) sess)
        with (current_user d sess).
      rewrite C.
      match goal with
      | |- context [negb ?b] => destruct b
      end; simpl; [|reflexivity].
      rewrite (delete_where_id _ (delete_where _ _))
        by apply delete_where_none.
      reflexivity.
    + unfold sio_voice_leave. rewrite C, B. reflexivity.
Qed.

Lemma pair_key_spec r u p :
  participant_of (Some r) (Some u) p = true <-> pair_key p = (r, u).
Proof.
  rewrite participant_of_spec. unfold pair_key. split.
  - intros [E1 E2]. congruence.
  - intros E. inversion E. auto.
Qed.

(** X17.  The voice handlers never duplicate a (room, user) pair: from a
    store with one participant row per pair, [voice_join], [voice_leave]
    and a stage decision lead to such a store again, and so does
    [api_create_room] when no row carries the id of the new room. *)
Theorem voice_handlers_keep_pairs_unique d :
  pair_unique d ->
  (forall sess room_id stamp,
     pair_unique (fst (sio_voice_join sess room_id stamp d)))
  /\ (forall sess room_id, pair_unique (fst (sio_voice_leave sess room_id d)))
  /\ (forall sess data,
        pair_unique (fst (sio_voice_stage_decision sess data d)))
  /\ (forall sess name stamp_room stamp_vp,
        (forall p, In p (voice_participants d) ->
           VoiceParticipant.room_id p <> next_id VoiceRoom.id (voice_rooms d)) ->
        pair_unique (fst (api_create_room sess name stamp_room stamp_vp d))).
Proof.
  intros U. unfold pair_unique in *. repeat split.
  - intros sess room_id stamp. unfold sio_voice_join.
    destruct (current_user d sess) as [cu|]; [|exact U].
    destruct (binds_opt d room_id); [|exact U]. simpl negb. cbv iota.
    destruct (first _) eqn:F; [exact U|].
    destruct room_id as [r|]; [|exact U]. simpl.
    rewrite map_app. simpl.
    eapply Permutation_NoDup; [apply Permutation_cons_append|].
    constructor; [|exact U]. intros I.
    apply in_map_iff in I. destruct I as (y & Ey & Iy).
    apply first_filter_None in F. rewrite filter_nil_iff in F.
    specialize (F y Iy).
    change (pair_key y = (r, User.id cu)) in Ey.
    apply pair_key_spec in Ey. congruence.
  - intros sess room_id. unfold sio_voice_leave.
    destruct (current_user d sess) as [cu|]; [|exact U].
    destruct (binds_opt d room_id); [|exact U].
    simpl. unfold delete_where. now apply NoDup_map_filter.
  - intros sess data. unfold sio_voice_stage_decision.
    destruct (current_user d sess) as [cu|]; [|exact U].
    destruct (sd_accept data); [|exact U].
    destruct (binds_opt d (sd_room_id data)); [|exact U]. simpl negb.
    cbv iota zeta.
    destruct (_ <=? _)%nat; [exact U|].
    destruct (binds_opt d (sd_user_id data)); [|exact U]. simpl.
    destruct (first _); [|exact U]. simpl.
    rewrite map_update_first; [exact U | reflexivity].
  - intros sess name stamp_room stamp_vp N. unfold api_create_room.
    destruct (current_user d sess) as [cu|]; [|exact U]. simpl.
    rewrite map_app. simpl.
    eapply Permutation_NoDup; [apply Permutation_cons_append|].
    constructor; [|exact U]. intros I.
    apply in_map_iff in I. destruct I as (y & Ey & Iy).
    unfold pair_key in Ey. inversion Ey. now apply (N y Iy).
Qed.

(** ** The stage *)

(** A rejected stage decision changes nothing in the store and
    sends the one event [voice_stage_denied] to the target's room. *)
Theorem stage_decision_reject sess data d cu :
  current_user d sess = Some cu ->
  sd_accept data = false ->
  sio_voice_stage_decision sess data d
  = (d, [Emit "voice_stage_denied" [("user_id", jopt_int (sd_user_id data))]
           (str_opt (sd_user_id data))]).
Proof.
  intros C A. unfold sio_voice_stage_decision. rewrite C, A. reflexivity.
Qed.

(** X18.  The stage decision does not look at who decides: any two
    logged-in callers, hosts of the room or not, get the same store and
    the same events for the same decision. *)
Theorem stage_decision_ignores_caller sess1 sess2 data d u1 u2 :
  current_user d sess1 = Some u1 ->
  current_user d sess2 = Some u2 ->
  sio_voice_stage_decision sess1 data d = sio_voice_stage_decision sess2 data d.
Proof.
  intros C1 C2. unfold sio_voice_stage_decision. rewrite C1, C2. reflexivity.
Qed.

(** A stage request changes nothing in the store and sends one
    [voice_stage_request], carrying the requester's id, to each host row
    of the room; in a room without a host row (or without a room id) it
    has no effect at all, the requester included. *)
Theorem request_stage_reaches_hosts sess room_id d cu :
  current_user d sess = Some cu ->
  let hosts := filter (with_role room_id "host") (voice_participants d) in
  let out := sio_voice_request_stage sess room_id d in
  fst out = d
  /\ List.length (snd out) = List.length hosts
  /\ (forall h, In h hosts ->
        In (Emit "voice_stage_request"
              [("from", JInt (User.id cu)); ("room_id", jopt_int room_id)]
              (str_int (VoiceParticipant.user_id h))) (snd out))
  /\ (forall e, In e (snd out) ->
        exists h, In h hosts
                  /\ e = Emit "voice_stage_request"
                           [("from", JInt (User.id cu));
                            ("room_id", jopt_int room_id)]
                           (str_int (VoiceParticipant.user_id h)))
  /\ (hosts = [] -> out = (d, [])).
Proof.
  intros C hosts out. unfold out, sio_voice_request_stage. rewrite C.
  destruct (binds_opt d room_id) eqn:B; simpl negb; cbv iota.
  - fold hosts. simpl. split; [reflexivity|]. split.
    { now rewrite !length_map. }
    split.
    { intros h I. rewrite map_map. apply in_map_iff. exists h. auto. }
    split.
    { intros e I. rewrite map_map in I. apply in_map_iff in I.
      destruct I as (h & E & I). exists h. auto. }
    intros ->. reflexivity.
  - assert (H0 : hosts = []).
    { unfold hosts.
      destruct (filter (with_role room_id "host") (voice_participants d))
        eqn:E; [reflexivity|].
      rewrite (with_role_binds d room_id "host") in B; [discriminate|].
      rewrite E. discriminate. }
    rewrite H0. simpl. repeat split; try reflexivity; intros ? [].
Qed.

(** X19.  The creator of a room is reached by stage requests: right
    after [api_create_room] on a store where no participant row carries
    the new room's id, a stage request for the new room by any logged-in
    user is the one event [voice_stage_request] to the creator. *)
Theorem request_stage_after_create sess name stamp_room stamp_vp d cu
    sess' requester :
  current_user d sess = Some cu ->
  current_user d sess' = Some requester ->
  (forall p, In p (voice_participants d) ->
     VoiceParticipant.room_id p <> next_id VoiceRoom.id (voice_rooms d)) ->
  let rid := next_id VoiceRoom.id (voice_rooms d) in
  let d' := fst (api_create_room sess name stamp_room stamp_vp d) in
  sio_voice_request_stage sess' (Some rid) d'
  = (d', [Emit "voice_stage_request"
            [("from", JInt (User.id requester)); ("room_id", JInt rid)]
            (str_int (User.id cu))]).
Proof.
  intros C C' N rid d'. subst rid d'.
  assert (E : filter (with_role (Some (next_id VoiceRoom.id (voice_rooms d)))
                        "host") (voice_participants d) = []).
  { apply filter_nil_iff. intros p I. unfold with_role, col_eqb.
    apply andb_false_iff. left. apply Z.eqb_neq. now apply N. }
  unfold api_create_room. rewrite C. cbn [fst].
  unfold sio_voice_request_stage.
  change (current_user (set_voice_participants _ (set_voice_rooms _ d)) sess')
    with (current_user d sess').
  rewrite C'.
  match goal with
  | |- context [binds_opt ?d' (Some ?n)] =>
      replace (binds_opt d' (Some n)) with true
  end.
  2:{ symmetry.
      eapply room_col_binds with (p := VoiceParticipant.mk _ _ _ _ _).
      - cbn [voice_participants set_voice_participants set_voice_rooms].
        apply in_or_app. right. left. reflexivity.
      - simpl. apply Z.eqb_refl. }
  simpl negb. cbv iota.
  cbn [voice_participants set_voice_participants set_voice_rooms].
  rewrite filter_app, E. cbn [app filter].
  unfold with_role at 1. cbn [VoiceParticipant.room_id VoiceParticipant.role col_eqb].
  rewrite Z.eqb_refl. reflexivity.
Qed.

(** ** The gate over time *)

(** X20.  One reply opens the window again: when the store holds a
    message from the recipient to the sender that is not older than any
    message of the sender to the recipient, the count is 0 and the sender
    may write, whatever the unlocks. *)
Theorem reply_resets_gate now d s r m :
  In m (messages d) -> is_reply s r m = true ->
  (forall m', In m' (messages d) ->
     Message.sender_id m' = s -> Message.recipient_id m' = Some r ->
     Message.created_at m' <= Message.created_at m) ->
  sent_count d s r = 0%nat /\ dm_allowed now d s r = Some true.
Proof.
  intros I R Late.
  assert (Z0 : sent_count d s r = 0%nat).
  { unfold sent_count, count.
    replace (filter (sent_after s r (since d s r)) (messages d))
      with (@nil Message.t); [reflexivity|].
    symmetry. apply filter_nil_iff. intros m' I'.
    destruct (sent_after s r (since d s r) m') eqn:E; [|reflexivity].
    apply sent_after_spec in E. destruct E as (E1 & E2 & E3).
    pose proof (Late m' I' E1 E2).
    destruct (since_latest_reply d s r) as (Le & _). specialize (Le m I R).
    lia. }
  split; [exact Z0|]. unfold dm_allowed. rewrite Z0.
  pose proof (proj1 (is_reply_spec s r m) R) as [E1 E2].
  destruct (message_stored d m I) as [S1 S2].
  rewrite E1 in S1. specialize (S2 s E2).
  rewrite (stored_binds d s S2), (stored_binds d r S1).
  destruct (unlock_active now d s r); reflexivity.
Qed.

(** X21.  A successful transfer opens the gate for 30 days: in a store
    with one unlock row per pair, after the transfer the unlock test for
    (payer, payee) succeeds at every time before the transfer's clock
    reading plus 30 days, so the payer may write whatever the count, and
    it fails from that time on. *)
Theorem transfer_opens_gate sess data now stamp d cu rcp a now' :
  current_user d sess = Some cu ->
  sc_amount data = Some a -> 0 < a -> a <= User.coins cu ->
  get_user d (sc_to data) = Some rcp ->
  unlock_unique d ->
  let d' := fst (sio_send_coins sess data now stamp d) in
  unlock_active now' d' (User.id cu) (User.id rcp)
  = (now' <? now + timedelta_days 30)
  /\ (now' < now + timedelta_days 30 ->
      dm_allowed now' d' (User.id cu) (User.id rcp) = Some true).
Proof.
  intros Hcu Ha Hpos Hfunds Hrcp U d'.
  pose proof (transfer_unlock_upsert sess data now stamp d cu rcp a
                Hcu Ha Hpos Hfunds Hrcp U) as Up.
  cbv zeta in Up. fold d' in Up.
  assert (A : unlock_active now' d' (User.id cu) (User.id rcp)
              = (now' <? now + timedelta_days 30)).
  { unfold unlock_active.
    destruct (first (filter (unlock_for (User.id cu) (User.id rcp))
                       (dm_unlocks d))) as [u0|].
    - destruct Up as (_ & _ & ->). reflexivity.
    - destruct Up as (_ & ->). reflexivity. }
  split; [exact A|]. intros L. unfold dm_allowed. rewrite A.
  assert (Ids : map User.id (users d') = map User.id (users d))
    by apply send_coins_user_ids.
  assert (B : forall u, In u (users d) -> binds d' (User.id u) = true).
  { intros u Iu. apply stored_binds. unfold stored_ints.
    apply in_or_app. left. rewrite Ids. now apply in_map. }
  rewrite (B cu (get_user_In _ _ _ Hcu)), (B rcp (get_user_In _ _ _ Hrcp)).
  apply Z.ltb_lt in L. rewrite L. reflexivity.
Qed.

(** X22.  An unlock is one-way and private to its pair: a request to
    [send_coins] changes the unlock rows of no pair other than (payer,
    payee); in particular the payee gains no unlock towards the payer. *)
Theorem transfer_unlocks_one_pair sess data now stamp d cu s r :
  current_user d sess = Some cu ->
  sc_to data <> Some r \/ User.id cu <> s ->
  filter (unlock_for s r)
    (dm_unlocks (fst (sio_send_coins sess data now stamp d)))
  = filter (unlock_for s r) (dm_unlocks d)
  /\ forall now',
       unlock_active now' (fst (sio_send_coins sess data now stamp d)) s r
       = unlock_active now' d s r.
Proof.
  intros C NE.
  assert (F : filter (unlock_for s r)
                (dm_unlocks (fst (sio_send_coins sess data now stamp d)))
              = filter (unlock_for s r) (dm_unlocks d)).
  { unfold sio_send_coins. rewrite C.
    destruct (_ <=? 0); [reflexivity|].
    destruct (User.coins cu <? _); [reflexivity|].
    destruct (binds_opt d (sc_to data)); [|reflexivity]. simpl negb.
    cbv iota.
    destruct (get_user d (sc_to data)) as [rcp|] eqn:G; [|reflexivity].
    simpl.
    assert (D : User.id rcp <> r \/ User.id cu <> s).
    { destruct NE as [N|N]; [left | right; exact N].
      intros E. apply N. rewrite (get_user_id _ _ _ G). now f_equal. }
    destruct (first (filter (unlock_for (User.id cu) (User.id rcp))
                       (dm_unlocks d))).
    - apply filter_update_first_other. intros x P.
      apply unlock_for_spec in P. destruct P as [P1 P2].
      assert (Q : unlock_for s r x = false).
      { destruct (unlock_for s r x) eqn:Q; [|reflexivity].
        apply unlock_for_spec in Q. destruct Q, D; congruence. }
      split; [exact Q|]. unfold unlock_for in *. simpl. exact Q.
    - rewrite filter_app. simpl.
      replace (unlock_for s r _) with false; [apply app_nil_r|].
      symmetry. unfold unlock_for. simpl. apply andb_false_iff.
      destruct D as [D|D]; [right | left]; apply Z.eqb_neq; exact D. }
  split; [exact F|]. intros now'. unfold unlock_active. now rewrite F.
Qed.

(** ** Conversations *)

Lemma between_sym a b m : between a b m = between b a m.
Proof. unfold between. apply orb_comm. Qed.

Lemma between_spec me other m :
  between me other m = true <->
  (Message.sender_id m = me /\ Message.recipient_id m = Some other)
  \/ (Message.sender_id m = other /\ Message.recipient_id m = Some me).
Proof.
  unfold between, opt_eqb.
  rewrite orb_true_iff, !andb_true_iff, !Z.eqb_eq.
  destruct (Message.recipient_id m) as [x|].
  - rewrite !Z.eqb_eq. split; intros [[H1 H2]|[H1 H2]]; subst;
      try (inversion H2; subst); auto.
  - split; intros [[_ H]|[_ H]]; discriminate.
Qed.

(** X23.  Two users see the same conversation: the history one of them
    fetches with the other's id is the answer the other gets with the
    first one's id. *)
Theorem conversation_is_shared sa sb d ua ub :
  current_user d sa = Some ua ->
  current_user d sb = Some ub ->
  User.id ua <> 0 -> User.id ub <> 0 ->
  api_messages sa None (Some (User.id ub)) d
  = api_messages sb None (Some (User.id ua)) d.
Proof.
  intros Ca Cb Na Nb. unfold api_messages.
  rewrite Ca, Cb. simpl truthy_str. cbv iota. simpl truthy_int.
  apply Z.eqb_neq in Na. apply Z.eqb_neq in Nb. rewrite Na, Nb. simpl negb.
  cbv iota.
  rewrite (found_binds d _ ua (get_user_row _ _ _ Ca)).
  rewrite (found_binds d _ ub (get_user_row _ _ _ Cb)).
  unfold history. f_equal. f_equal. f_equal. f_equal.
  apply filter_ext. intros m. apply between_sym.
Qed.

(** X24.  A fetch by a 64-bit [recipient_id] returns only messages of
    the caller's own conversation with that user: each one was sent by
    one of the two to the other.  (A fetch by room has no such
    restriction; a [recipient_id] that cannot be bound ends in a 500, see
    [api_messages_unbindable].) *)
Theorem conversation_is_private sess d cu other m :
  current_user d sess = Some cu ->
  other <> 0 ->
  fits other = true ->
  api_messages sess None (Some other) d
  = JsonList 200
      (map (message_payload d) (history (between (User.id cu) other) d))
  /\ (In m (history (between (User.id cu) other) d) ->
      In m (messages d)
      /\ ((Message.sender_id m = User.id cu
           /\ Message.recipient_id m = Some other)
          \/ (Message.sender_id m = other
              /\ Message.recipient_id m = Some (User.id cu)))).
Proof.
  intros C N F. split.
  - unfold api_messages. rewrite C. simpl.
    apply Z.eqb_neq in N. rewrite N. simpl.
    rewrite (fits_binds d other F). reflexivity.
  - intros I.
    destruct (history_spec (between (User.id cu) other) d) as (_ & _ & H & _).
    destruct (H m I) as [J B]. split; [exact J|]. now apply between_spec.
Qed.

(** ** Room creation *)

(** X25.  A room created without a name, or with a name that is blank
    once stripped, is called "Room"; in every case the stored name is not
    empty and is the name the answer carries, next to the new id. *)
Theorem create_room_name sess name stamp_room stamp_vp d cu :
  current_user d sess = Some cu ->
  exists room,
    voice_rooms (fst (api_create_room sess name stamp_room stamp_vp d))
    = (voice_rooms d ++ [room])%list
    /\ snd (api_create_room sess name stamp_room stamp_vp d)
       = JsonObject 200 [("id", JInt (VoiceRoom.id room));
                         ("name", JStr (VoiceRoom.name room))]
    /\ VoiceRoom.name room <> ""%string
    /\ ((forall n, name = Some n -> strip n = ""%string) ->
        VoiceRoom.name room = "Room")
    /\ (forall n, name = Some n -> strip n <> ""%string ->
        VoiceRoom.name room = strip n).
Proof.
  intros C. unfold api_create_room. rewrite C. simpl.
  eexists. split; [reflexivity|]. split; [reflexivity|]. simpl.
  split; [|split].
  - destruct (_ =? "")%string eqn:E; [discriminate|].
    now apply String.eqb_neq in E.
  - intros B. destruct name as [n|]; [|reflexivity].
    unfold str_or. simpl. destruct (n =? "")%string; simpl; [reflexivity|].
    rewrite (B n eq_refl). reflexivity.
  - intros n -> B. unfold str_or. simpl.
    destruct (n =? "")%string eqn:E.
    + apply String.eqb_eq in E. subst n. exfalso. apply B. reflexivity.
    + simpl. apply String.eqb_neq in B. rewrite B. reflexivity.
Qed.

(** ** Registration *)

Lemma register_taken username password hash d x :
  first (filter (named (strip (str_or username ""))) (users d)) = Some x ->
  (3 <= String.length (strip (str_or username "")))%nat ->
  (6 <= String.length (strip (str_or password "")))%nat ->
  register username password hash d = (d, 409).
Proof.
  intros F Lu Lp. unfold register.
  set (u := strip (str_or username "")) in *.
  set (p := strip (str_or password "")) in *.
  assert (Eu : (u =? "")%string = false).
  { apply String.eqb_neq. intros E. rewrite E in Lu. simpl in Lu. lia. }
  assert (Ep : (p =? "")%string = false).
  { apply String.eqb_neq. intros E. rewrite E in Lp. simpl in Lp. lia. }
  rewrite Eu, Ep. simpl.
  apply Nat.ltb_ge in Lu. apply Nat.ltb_ge in Lp. rewrite Lu, Lp.
  fold (named u). rewrite F. reflexivity.
Qed.

(** X26.  [register] refuses, with the store unchanged, a username
    shorter than 3 characters or a password shorter than 6 (both taken
    after stripping; status 400), and a username that is already taken
    (status 409). *)
Theorem register_rejects username password hash d :
  let u := strip (str_or username "") in
  let p := strip (str_or password "") in
  ((String.length u < 3)%nat \/ (String.length p < 6)%nat ->
   register username password hash d = (d, 400))
  /\ (forall x, first (filter (named u) (users d)) = Some x ->
      (3 <= String.length u)%nat -> (6 <= String.length p)%nat ->
      register username password hash d = (d, 409)).
Proof.
  intros u p. unfold register. fold u p. split.
  - intros L. destruct (_ || _); [reflexivity|].
    destruct (String.length u <? 3)%nat eqn:Lu; [reflexivity|].
    apply Nat.ltb_ge in Lu.
    assert (Lp : (String.length p <? 6)%nat = true)
      by (apply Nat.ltb_lt; lia).
    rewrite Lp. reflexivity.
  - intros x F Lu Lp. fold (register username password hash d).
    now apply (register_taken username password hash d x).
Qed.

(** X27.  A successful [register] (status 302) adds one user with a
    fresh id, the stripped username, the given hash, status offline, no
    admin flag and 1000 coins; the user is then found by id and by name,
    and registering the same username once more is answered 409. *)
Theorem register_then_lookup username password hash hash' d :
  let u := strip (str_or username "") in
  let p := strip (str_or password "") in
  (3 <= String.length u)%nat -> (6 <= String.length p)%nat ->
  first (filter (named u) (users d)) = None ->
  let user := User.mk (next_id User.id (users d)) u hash "offline" false 1000 in
  let d' := set_users (users d ++ [user]) d in
  register username password hash d = (d', 302)
  /\ get_user d' (Some (User.id user)) = Some user
  /\ first (filter (named u) (users d')) = Some user
  /\ register username password hash' d' = (d', 409).
Proof.
  intros u p Lu Lp F user d'.
  assert (Eu : (u =? "")%string = false).
  { apply String.eqb_neq. intros E. rewrite E in Lu. simpl in Lu. lia. }
  assert (Ep : (p =? "")%string = false).
  { apply String.eqb_neq. intros E. rewrite E in Lp. simpl in Lp. lia. }
  assert (N : first (filter (named u) (users d')) = Some user).
  { unfold d'. simpl. rewrite filter_app.
    apply first_filter_None in F. rewrite F. simpl.
    unfold named at 1. simpl. rewrite String.eqb_refl. reflexivity. }
  split; [|split; [|split]].
  - unfold register. fold u p. rewrite Eu, Ep. simpl.
    apply Nat.ltb_ge in Lu. apply Nat.ltb_ge in Lp. rewrite Lu, Lp.
    fold (named u). rewrite F. reflexivity.
  - unfold d'. simpl. rewrite filter_app.
    replace (filter (has_id (next_id User.id (users d))) (users d))
      with (@nil User.t).
    + simpl. unfold has_id at 1. simpl. rewrite Z.eqb_refl. reflexivity.
    + symmetry. apply filter_nil_iff. intros x I. unfold has_id.
      apply Z.eqb_neq. pose proof (next_id_fresh User.id _ _ I). lia.
  - exact N.
  - now apply (register_taken username password hash' d' user).
Qed.

(** ** Logging in and out *)

Lemma ids_unique_reachable d : reachable d -> NoDup (map User.id (users d)).
Proof.
  intros R.
  assert (U : ids_unique d).
  { revert d R. apply reachable_invariant.
    - unfold ids_unique. simpl. repeat split; constructor.
    - apply change_ids_unique. }
  exact (proj1 U).
Qed.

Lemma unique_id_first (l : list User.t) c :
  NoDup (map User.id l) -> In c l ->
  first (filter (has_id (User.id c)) l) = Some c.
Proof.
  induction l as [|x l IH]; simpl; [intros _ []|].
  intros N I. inversion N as [|? ? NI N']; subst.
  unfold has_id at 1. destruct (User.id x =? User.id c) eqn:E.
  - simpl. destruct I as [->|I]; [reflexivity|]. exfalso. apply NI.
    apply Z.eqb_eq in E. rewrite E. now apply in_map.
  - destruct I as [->|I]; [rewrite Z.eqb_refl in E; discriminate|].
    now apply IH.
Qed.

(** With unique ids, updating the first row a query returns is updating
    the row with that id. *)
Lemma update_first_by_id (l : list User.t) p f c :
  NoDup (map User.id l) -> first (filter p l) = Some c ->
  update_first p f l = update_first (has_id (User.id c)) f l.
Proof.
  induction l as [|x l IH]; simpl; [reflexivity|].
  intros N F. inversion N as [|? ? NI N']; subst.
  destruct (p x) eqn:P.
  - simpl in F. inversion F; subst. unfold has_id. now rewrite Z.eqb_refl.
  - apply first_filter_In in F as F'. destruct F' as [I _].
    unfold has_id at 1. destruct (User.id x =? User.id c) eqn:E.
    + exfalso. apply NI. apply Z.eqb_eq in E. rewrite E. now apply in_map.
    + f_equal. now apply IH.
Qed.

(** X28.  A login attempt that does not succeed (status 400 for a blank
    username or password, 401 for an unknown user or a wrong password)
    leaves the store unchanged and the session logged out, also when the
    session was logged in before the attempt. *)
Theorem login_failure_logs_out check sess username password d :
  snd (login check sess username password d) <> 302 ->
  fst (fst (login check sess username password d)) = d
  /\ current_user d (snd (fst (login check sess username password d))) = None
  /\ (snd (login check sess username password d) = 400
      \/ snd (login check sess username password d) = 401).
Proof.
  unfold login.
  assert (A : current_user d
                match current_user d sess with
                | Some _ => logout_user sess
                | None => sess
                end = None).
  { destruct (current_user d sess) eqn:C; [reflexivity | exact C]. }
  destruct (_ || _); simpl; [auto|].
  destruct (first _) as [user|]; simpl; [|auto].
  destruct (check _ _); simpl; [congruence | auto].
Qed.

(** X29.  A login with the name of a registered user and a password the
    hash check accepts answers 302, puts that user's id in the session
    and sets that user's status to online; no other column and no other
    table changes, and with unique ids the session's user is then that
    user. *)
Theorem login_success check sess username password d user :
  let u := strip (str_or username "") in
  let p := strip (str_or password "") in
  u <> ""%string -> p <> ""%string ->
  first (filter (named u) (users d)) = Some user ->
  check (User.password_hash user) p = true ->
  let out := login check sess username password d in
  snd out = 302
  /\ sess__user_id (snd (fst out)) = Some (User.id user)
  /\ fst (fst out)
     = set_users (update_first (named u) (User.set_status "online") (users d)) d
  /\ first (filter (named u) (users (fst (fst out))))
     = Some (User.set_status "online" user)
  /\ map User.coins (users (fst (fst out))) = map User.coins (users d)
  /\ (NoDup (map User.id (users d)) ->
      current_user (fst (fst out)) (snd (fst out))
      = Some (User.set_status "online" user)).
Proof.
  intros u p Nu Np F Ck out. unfold out, login. fold u p.
  apply String.eqb_neq in Nu. apply String.eqb_neq in Np.
  rewrite Nu, Np, F, Ck. simpl.
  split; [reflexivity|]. split; [reflexivity|]. split; [reflexivity|].
  split; [|split].
  - rewrite filter_update_first_same by (intros x H; exact H).
    unfold first in F |- *.
    destruct (filter (named u) (users d)); simpl in *; congruence.
  - apply map_update_first. reflexivity.
  - intros N. unfold current_user, login_user. simpl.
    rewrite (update_first_by_id _ _ _ user N F).
    rewrite filter_update_first_same by (intros x H; exact H).
    apply first_filter_In in F. destruct F as [I _].
    pose proof (unique_id_first _ _ N I) as G. unfold first in G |- *.
    destruct (filter (has_id (User.id user)) (users d)); simpl in *; congruence.
Qed.

(** [logout] by a logged-in user sets that user's status to
    offline, changes nothing else, and leaves a session without user. *)
Theorem logout_goes_offline sess d cu :
  current_user d sess = Some cu ->
  fst (logout sess d) = step (SetStatus sess "offline") d
  /\ get_user (fst (logout sess d)) (Some (User.id cu))
     = Some (User.set_status "offline" cu)
  /\ map User.coins (users (fst (logout sess d))) = map User.coins (users d)
  /\ sess__user_id (snd (logout sess d)) = None
  /\ current_user (fst (logout sess d)) (snd (logout sess d)) = None.
Proof.
  intros C. unfold logout. simpl. unfold set_user_status. rewrite C. simpl.
  split; [reflexivity|]. split; [|split; [|split; reflexivity]].
  - rewrite filter_update_first_same by (intros x H; exact H).
    pose proof (get_user_row _ _ _ C) as G. simpl in G. unfold first in G |- *.
    destruct (filter (has_id (User.id cu)) (users d)); simpl in *; congruence.
  - apply map_update_first. reflexivity.
Qed.

(** X30.  Logging in and out stay within the stores the requests of a
    run produce: from a reachable store both lead to a reachable store,
    so every invariant of runs also holds after them. *)
Theorem login_logout_reachable check sess username password d :
  reachable d ->
  reachable (fst (fst (login check sess username password d)))
  /\ reachable (fst (logout sess d)).
Proof.
  intros R. split.
  - unfold login.
    destruct (_ || _); simpl; [exact R|].
    destruct (first _) as [user|] eqn:F; simpl; [|exact R].
    destruct (check _ _); simpl; [|exact R].
    pose proof (ids_unique_reachable d R) as N.
    replace (set_users _ d)
      with (step (SetStatus (mkSession (Some (User.id user)) None) "online") d);
      [now constructor|].
    simpl. unfold set_user_status, current_user. simpl.
    apply first_filter_In in F as F'. destruct F' as [I _].
    rewrite (unique_id_first _ _ N I).
    now rewrite (update_first_by_id _ _ _ user N F).
  - unfold logout. destruct (current_user d sess) as [cu|] eqn:C; [|exact R].
    simpl.
    replace (set_users _ d) with (step (SetStatus sess "offline") d);
      [now constructor|].
    simpl. unfold set_user_status. now rewrite C.
Qed.

(** ** The further properties on sample runs *)

Lemma ex_db0_reachable : reachable ex_db0.
Proof. unfold ex_db0. apply run_reachable. constructor. Qed.

Lemma ex_db3_reachable : reachable ex_db3.
Proof. unfold ex_db3. apply run_reachable. apply ex_db0_reachable. Qed.

Lemma ex_rooms_reachable : reachable ex_rooms.
Proof. unfold ex_rooms. apply run_reachable. apply ex_db0_reachable. Qed.

Lemma send_message_not_authenticated_witness :
  sio_send_message ex_anon "sid9" ex_hello 40 41 ex_db0
  = (ex_db0, [Emit "blocked_message" [("reason", JStr "Not authenticated.")]
                "sid9"]).
Proof.
  apply send_message_not_authenticated. left. reflexivity.
Defined.

(** Alice is over the limit, and her blank message is dropped without a
    word. *)
Lemma send_message_blank_body_witness :
  dm_allowed 40 ex_db3 1 2 = Some false
  /\ sio_send_message ex_alice "sid1" (mkSendMessage (Some "   ") (Some 2) None)
       40 41 ex_db3 = (ex_db3, []).
Proof.
  split; [reflexivity|].
  apply (send_message_blank_body ex_alice "sid1"
           (mkSendMessage (Some "   ") (Some 2) None) 40 41 ex_db3 1).
  - reflexivity.
  - lia.
  - reflexivity.
Defined.

(** Alice is over the limit towards Bob and still writes to the lobby. *)
Lemma send_message_broadcast_never_gated_witness :
  snd (sio_send_message ex_alice "sid1" (mkSendMessage (Some "hi all") None None)
         40 41 ex_db3)
  = [Emit "new_message"
       [("id", JInt 4); ("body", JStr "hi all"); ("sender_id", JInt 1);
        ("sender_username", JStr "alice"); ("recipient_id", JNull);
        ("room", JNull); ("created_at", JTime 41)] "lobby"].
Proof.
  pose proof (send_message_broadcast_never_gated ex_alice "sid1"
                (mkSendMessage (Some "hi all") None None) 40 41 ex_db3 1
                eq_refl ltac:(lia) ltac:(vm_compute; discriminate) eq_refl) as T.
  cbv zeta in T. rewrite T. reflexivity.
Defined.

Lemma authenticated_only_disconnects_witness :
  sio_send_coins ex_anon ex_gift 100 101 ex_db0 = (ex_db0, [Disconnect])
  /\ sio_voice_join ex_anon (Some 1) 7 ex_db0 = (ex_db0, [Disconnect]).
Proof.
  pose proof (authenticated_only_disconnects ex_anon ex_db0 eq_refl)
    as (A & B & _).
  split; [apply A | apply B].
Defined.

(** Alice sends 50 coins to user 99, whom nobody knows. *)
Lemma send_coins_unknown_recipient_witness :
  fits_opt (Some 99) = true
  /\ sio_send_coins ex_alice (mkSendCoins (Some 99) (Some 50)) 100 101 ex_db0
     = (ex_db0,
        [Emit "blocked_message" [("reason", JStr "User not found.")] "1"]).
Proof.
  split; [reflexivity|].
  apply (send_coins_unknown_recipient ex_alice (mkSendCoins (Some 99) (Some 50))
           100 101 ex_db0 ex_alice_row 50 eq_refl eq_refl).
  - lia.
  - simpl. lia.
  - reflexivity.
  - reflexivity.
Defined.

Lemma reachable_ids_unique_witness : ids_unique ex_unlocked.
Proof. exact (reachable_ids_unique ex_unlocked ex_unlocked_reachable). Defined.

Lemma reachable_usernames_witness :
  NoDup (map User.username (users ex_unlocked)).
Proof. exact (proj1 (reachable_usernames ex_unlocked ex_unlocked_reachable)). Defined.

Lemma reachable_total_coins_witness : total_coins ex_unlocked = 2000.
Proof.
  rewrite (reachable_total_coins ex_unlocked ex_unlocked_reachable). reflexivity.
Defined.

Lemma reachable_balances_nonnegative_witness :
  Forall (fun u => 0 <= User.coins u) (users ex_unlocked).
Proof.
  exact (reachable_balances_nonnegative ex_unlocked ex_unlocked_reachable).
Defined.

Lemma reachable_transactions_witness :
  Forall (fun tx => 0 < CoinTransaction.amount tx)
    (coin_transactions ex_unlocked).
Proof.
  apply Forall_forall. intros tx I.
  exact (proj1 (reachable_transactions ex_unlocked ex_unlocked_reachable tx I)).
Defined.

Lemma reachable_unlocks_paid_witness :
  Forall (fun u => DMUnlock.expires_at u <> None) (dm_unlocks ex_unlocked).
Proof.
  apply Forall_forall. intros u I.
  exact (proj1 (reachable_unlocks_paid ex_unlocked ex_unlocked_reachable u I)).
Defined.

Lemma reachable_bodies_witness :
  Forall (fun m => Message.body m <> ""%string) (messages ex_unlocked).
Proof.
  apply Forall_forall. intros m I.
  destruct (proj1 (reachable_bodies ex_unlocked ex_unlocked_reachable) m I)
    as (_ & B & _).
  exact B.
Defined.

Lemma reachable_stage_cap_witness : (speakers ex_rooms (Some 1%Z) <= 10)%nat.
Proof. exact (reachable_stage_cap ex_rooms ex_rooms_reachable (Some 1)). Defined.

(** Bob, host of room 1, joins it again and is announced as host. *)
Lemma voice_join_idempotent_witness :
  sio_voice_join ex_bob (Some 1) 9 ex_rooms
  = (ex_rooms, [JoinRoom "voice_1";
                Emit "voice_user_joined"
                  [("user_id", JInt 2); ("role", JStr "host")] "voice_1"]).
Proof.
  exact (proj1 (voice_join_idempotent ex_bob 1 9 9 ex_rooms ex_bob_row eq_refl)
           (VoiceParticipant.mk 1 1 2 "host" 6) eq_refl).
Defined.

(** Alice leaves a room she never joined. *)
Lemma voice_leave_idempotent_witness :
  sio_voice_leave ex_alice (Some 1) ex_db0
  = (ex_db0, [LeaveRoom "voice_1";
              Emit "voice_user_left" [("user_id", JInt 1)] "voice_1"]).
Proof.
  exact (proj1 (voice_leave_idempotent ex_alice (Some 1) ex_db0 ex_alice_row
                  eq_refl) eq_refl eq_refl).
Defined.

Lemma ex_rooms_pair_unique : pair_unique ex_rooms.
Proof.
  unfold pair_unique. vm_compute.
  constructor; [intros [E|[]]; discriminate|].
  constructor; [intros [] | constructor].
Defined.

Lemma voice_handlers_keep_pairs_unique_witness :
  pair_unique (fst (sio_voice_join ex_alice (Some 1) 9 ex_rooms))
  /\ pair_unique (fst (sio_voice_leave ex_bob (Some 1) ex_rooms)).
Proof.
  pose proof (voice_handlers_keep_pairs_unique ex_rooms ex_rooms_pair_unique)
    as (J & L & _).
  split; [apply J | apply L].
Defined.

(** Alice, a listener, decides about the stage like Bob, the host. *)
Lemma stage_decision_ignores_caller_witness :
  sio_voice_stage_decision ex_alice (mkStageDecision (Some 1) (Some 1) true)
    ex_rooms
  = sio_voice_stage_decision ex_bob (mkStageDecision (Some 1) (Some 1) true)
      ex_rooms.
Proof.
  exact (stage_decision_ignores_caller ex_alice ex_bob
           (mkStageDecision (Some 1) (Some 1) true) ex_rooms
           ex_alice_row ex_bob_row eq_refl eq_refl).
Defined.

(** Bob creates the first room and Alice asks for the stage. *)
Lemma request_stage_after_create_witness :
  snd (sio_voice_request_stage ex_alice (Some 1)
         (fst (api_create_room ex_bob (Some "talk") 5 6 ex_db0)))
  = [Emit "voice_stage_request" [("from", JInt 1); ("room_id", JInt 1)] "2"].
Proof.
  pose proof (request_stage_after_create ex_bob (Some "talk") 5 6 ex_db0
                ex_bob_row ex_alice ex_alice_row eq_refl eq_refl) as T.
  cbv zeta in T.
  assert (N : forall p, In p (voice_participants ex_db0) ->
                VoiceParticipant.room_id p
                <> next_id VoiceRoom.id (voice_rooms ex_db0)).
  { intros p I. vm_compute in I. destruct I. }
  exact (f_equal snd (T N)).
Defined.

(** Bob's answer at time 51 follows Alice's three messages. *)
Lemma reply_resets_gate_witness :
  sent_count ex_replied 1 2 = 0%nat
  /\ dm_allowed 60 ex_replied 1 2 = Some true.
Proof.
  apply (reply_resets_gate 60 ex_replied 1 2
           (Message.mk 4 "hello" 51 2 (Some 1) None)).
  - vm_compute. tauto.
  - reflexivity.
  - intros m' I _ _. vm_compute in I.
    destruct I as [<-|[<-|[<-|[<-|[]]]]]; simpl; lia.
Defined.

Lemma transfer_opens_gate_witness :
  dm_allowed 200 ex_unlocked 1 2 = Some true.
Proof.
  pose proof (transfer_opens_gate ex_alice ex_gift 100 101 ex_db3
                ex_alice_row ex_bob_row 50 200 eq_refl eq_refl ltac:(lia)
                ltac:(simpl; lia) eq_refl ex_db3_unlock_unique) as T.
  cbv zeta in T. destruct T as (_ & T).
  apply T. vm_compute. reflexivity.
Defined.

(** Alice's gift gives Bob no unlock towards Alice. *)
Lemma transfer_unlocks_one_pair_witness :
  unlock_active 200 ex_unlocked 2 1 = false.
Proof.
  pose proof (transfer_unlocks_one_pair ex_alice ex_gift 100 101 ex_db3
                ex_alice_row 2 1 eq_refl) as T.
  destruct T as (_ & T).
  - left. discriminate.
  - unfold ex_unlocked, step. rewrite T. reflexivity.
Defined.

Lemma conversation_is_shared_witness :
  api_messages ex_alice None (Some 2) ex_db3
  = api_messages ex_bob None (Some 1) ex_db3.
Proof.
  exact (conversation_is_shared ex_alice ex_bob ex_db3 ex_alice_row ex_bob_row
           eq_refl eq_refl ltac:(simpl; lia) ltac:(simpl; lia)).
Defined.

Lemma conversation_is_private_witness :
  Forall (fun m => Message.sender_id m = 1 \/ Message.sender_id m = 2)
    (history (between 1 2) ex_db3).
Proof.
  apply Forall_forall. intros m I.
  destruct (conversation_is_private ex_alice ex_db3 ex_alice_row 2 m eq_refl
              ltac:(lia) eq_refl) as (_ & T).
  destruct (T I) as (_ & [[S _]|[S _]]); [left | right]; exact S.
Defined.

(** Bob creates a room with a blank name. *)
Lemma create_room_name_witness :
  exists room,
    voice_rooms (fst (api_create_room ex_bob (Some "   ") 5 6 ex_db0)) = [room]
    /\ VoiceRoom.name room = "Room".
Proof.
  destruct (create_room_name ex_bob (Some "   ") 5 6 ex_db0 ex_bob_row eq_refl)
    as (room & V & _ & _ & B & _).
  exists room. split; [exact V|].
  apply B. intros n E. inversion E. reflexivity.
Defined.

Lemma register_rejects_witness :
  register (Some " al ") (Some "secret9") "h9" ex_db0 = (ex_db0, 400)
  /\ register (Some "alice") (Some "secret9") "h9" ex_db0 = (ex_db0, 409).
Proof.
  pose proof (register_rejects (Some " al ") (Some "secret9") "h9" ex_db0) as T.
  pose proof (register_rejects (Some "alice") (Some "secret9") "h9" ex_db0) as T'.
  cbv zeta in T, T'. split.
  - apply (proj1 T). left. vm_compute. lia.
  - apply (proj2 T' ex_alice_row); [reflexivity | |]; vm_compute; lia.
Defined.

Lemma register_then_lookup_witness :
  register (Some "carol") (Some "secret3") "h3" ex_db0
  = (set_users (users ex_db0 ++ [User.mk 3 "carol" "h3" "offline" false 1000])
       ex_db0, 302).
Proof.
  pose proof (register_then_lookup (Some "carol") (Some "secret3") "h3" "h4"
                ex_db0) as T.
  cbv zeta in T. destruct T as (T & _).
  - vm_compute. lia.
  - vm_compute. lia.
  - reflexivity.
  - exact T.
Defined.

(** Alice, logged in, posts a wrong password and is logged out. *)
Lemma login_failure_logs_out_witness :
  fst (fst (login ex_check ex_alice (Some "alice") (Some "wrong") ex_db0))
  = ex_db0
  /\ current_user ex_db0
       (snd (fst (login ex_check ex_alice (Some "alice") (Some "wrong") ex_db0)))
     = None.
Proof.
  destruct (login_failure_logs_out ex_check ex_alice (Some "alice")
              (Some "wrong") ex_db0) as (A & B & _).
  - vm_compute. discriminate.
  - split; [exact A | exact B].
Defined.

Lemma login_success_witness :
  snd (login ex_check ex_anon (Some "alice") (Some "secret1") ex_db0) = 302
  /\ sess__user_id
       (snd (fst (login ex_check ex_anon (Some "alice") (Some "secret1") ex_db0)))
     = Some 1.
Proof.
  pose proof (login_success ex_check ex_anon (Some "alice") (Some "secret1")
                ex_db0 ex_alice_row) as T.
  cbv zeta in T. destruct T as (A & B & _).
  - vm_compute. discriminate.
  - vm_compute. discriminate.
  - reflexivity.
  - reflexivity.
  - split; [exact A | exact B].
Defined.

Lemma login_logout_reachable_witness :
  reachable (fst (fst (login ex_check ex_alice (Some "alice") (Some "secret1")
                         ex_db0)))
  /\ reachable (fst (logout ex_alice ex_db0)).
Proof.
  exact (login_logout_reachable ex_check ex_alice (Some "alice") (Some "secret1")
           ex_db0 ex_db0_reachable).
Defined.
